(** * yt-transcript: the fetch / transcribe pipeline of [main.py]

    A shallow embedding of [download_audio_from_youtube], [transcribe_audio]
    and [main], with the Python string and path primitives they call.

    Conventions.
    - A Python [str] is a [string]; every character stands for a code point
      below 256.
    - The operating system, the downloader and the transcription service are
      a [World]: one deterministic answer per call.
    - A Python computation is a value of [M A]: the trace of calls it made,
      and either a value or a raised exception. *)

From Stdlib Require Import String Ascii List ZArith Lia Bool Arith.
From Stdlib Require Import Permutation Sorted.
Import ListNotations.

Open Scope list_scope.
Open Scope string_scope.

(* ================================================================== *)
(** * Python strings *)

Module PyStr.

(** [s.startswith(p)] *)
Definition startswith (s p : string) : bool := String.prefix p s.

(** [sub in s] *)
Fixpoint contains (sub s : string) : bool :=
  String.prefix sub s ||
  match s with
  | EmptyString => false
  | String _ s' => contains sub s'
  end.

(** [s.endswith(suf)] *)
Fixpoint endswith (s suf : string) : bool :=
  String.eqb s suf ||
  match s with
  | EmptyString => false
  | String _ s' => endswith s' suf
  end.

Definition push_front (c : ascii) (pieces : list string) : list string :=
  match pieces with
  | [] => [String c ""]
  | p :: ps => String c p :: ps
  end.

(** The pieces of [s] between the occurrences of [sep], found left to right
    and not overlapping; [skip] characters of a separator that has just
    been matched are still to be passed over. *)
Fixpoint split_from (sep : string) (skip : nat) (s : string) : list string :=
  match s with
  | EmptyString => [""]
  | String c s' =>
      match skip with
      | S k => split_from sep k s'
      | O =>
          if String.prefix sep s
          then "" :: split_from sep (String.length sep - 1) s'
          else push_front c (split_from sep 0 s')
      end
  end.

(** [s.split(sep)] for a separator that is not empty. *)
Definition split (s sep : string) : list string := split_from sep 0 s.

(** [c.isspace()] for a code point below 256. *)
Definition isspace (c : ascii) : bool :=
  let n := nat_of_ascii c in
  (((9 <=? n) && (n <=? 13)) || ((28 <=? n) && (n <=? 32))
   || (n =? 133) || (n =? 160))%nat.

Fixpoint lstrip (s : string) : string :=
  match s with
  | EmptyString => ""
  | String c s' => if isspace c then lstrip s' else s
  end.

Fixpoint rstrip (s : string) : string :=
  match s with
  | EmptyString => ""
  | String c s' =>
      match rstrip s' with
      | EmptyString => if isspace c then "" else String c ""
      | r => String c r
      end
  end.

(** [s.strip()] *)
Definition strip (s : string) : string := rstrip (lstrip s).

(** The line feed, ['\n']. *)
Definition LF : string := String "010" "".

End PyStr.

(* ================================================================== *)
(** * [os.path] on a POSIX system *)

Module PosixPath.

(** [os.path.join(a, b)] *)
Definition join (a b : string) : string :=
  if PyStr.startswith b "/" then b
  else if String.eqb a "" || PyStr.endswith a "/" then a ++ b
  else a ++ "/" ++ b.

(** [s.rfind(c)] for a single character: the index of its last
    occurrence, or [-1]; [i] is the index of the head of [s] and [last]
    the answer so far. *)
Fixpoint rfind_from (c : ascii) (i last : Z) (s : string) : Z :=
  match s with
  | EmptyString => last
  | String d s' => rfind_from c (i + 1) (if Ascii.eqb d c then i else last) s'
  end.

Definition rfind (s : string) (c : ascii) : Z := rfind_from c 0 (-1) s.

(** The loop of [genericpath._splitext] that passes over the dots a file
    name starts with: [true] as soon as one of the [n] characters from
    index [i] on is not a dot. *)
Fixpoint name_before_dot (n i : nat) (p : string) : bool :=
  match n with
  | O => false
  | S n' =>
      match String.get i p with
      | Some "."%char => name_before_dot n' (S i) p
      | _ => true
      end
  end.

(** [os.path.splitext(p)] *)
Definition splitext (p : string) : string * string :=
  let sepIndex := rfind p "/" in
  let dotIndex := rfind p "." in
  if (sepIndex <? dotIndex)%Z then
    let filenameIndex := (sepIndex + 1)%Z in
    if name_before_dot (Z.to_nat (dotIndex - filenameIndex))
                       (Z.to_nat filenameIndex) p
    then (String.substring 0 (Z.to_nat dotIndex) p,
          String.substring (Z.to_nat dotIndex)
                           (String.length p - Z.to_nat dotIndex) p)
    else (p, "")
  else (p, "").

End PosixPath.

(* ================================================================== *)
(** * Computations: traces and exceptions *)

(** The exceptions the program can meet.  [str_e] is what [str(e)] gives. *)
Inductive exn : Type :=
| CalledProcessError (str_e stderr : string)
    (* [subprocess.run(check=True)]: the downloader exited non-zero *)
| PyException (str_e : string).
    (* any other subclass of [Exception]: [OSError], [IndexError], ... *)

(** [str(e)] *)
Definition str_exn (e : exn) : string :=
  match e with
  | CalledProcessError str_e _ | PyException str_e => str_e
  end.

Inductive result (A : Type) : Type :=
| Ok (a : A)
| Raise (e : exn).
Arguments Ok {A} a.
Arguments Raise {A} e.

(** [PrerecordedOptions(...)] *)
Record PrerecordedOptions : Type := {
  model : string;
  language : string;
  smart_format : bool;
  paragraphs : bool;
  diarize : bool
}.

(** What the program does to the outside, in the order it does it. *)
Inductive event : Type :=
| Print (text : string)
| MakeDirs (path : string)
| RunProcess (command : list string)
| OpenFile (path mode : string)
| CloseFile (path : string)
| WriteFile (path data : string)
| TranscribeFile (api_key path : string) (options : PrerecordedOptions).

Definition M (A : Type) : Type := list event * result A.

Definition ret {A} (a : A) : M A := ([], Ok a).

Definition raise {A} (e : exn) : M A := ([], Raise e).

Definition bind {A B} (m : M A) (f : A -> M B) : M B :=
  match m with
  | (t, Ok a) => let (t', r) := f a in ((t ++ t')%list, r)
  | (t, Raise e) => (t, Raise e)
  end.

Notation "x <- m ;; k" := (bind m (fun x => k))
  (at level 61, m at next level, right associativity).
Notation "m ;;; k" := (bind m (fun _ => k))
  (at level 61, right associativity).

(** A call to the outside: it is recorded, and the world decides how it
    ends. *)
Definition call {A} (ev : event) (r : result A) : M A := ([ev], r).

(** A call that leaves no mark outside the program. *)
Definition ask {A} (r : result A) : M A := ([], r).

Definition print (text : string) : M unit := call (Print text) (Ok tt).

(** [try: m  except ... as e: h e] *)
Definition try_except {A} (m : M A) (h : exn -> M A) : M A :=
  match m with
  | (t, Raise e) => let (t', r) := h e in ((t ++ t')%list, r)
  | done => done
  end.

(** [m] followed by [ev] on every exit path, as [with] does with the
    closing of a file. *)
Definition finally {A} (m : M A) (ev : event) : M A :=
  let (t, r) := m in ((t ++ [ev])%list, r).

Fixpoint mapM {A B} (f : A -> M B) (l : list A) : M (list B) :=
  match l with
  | [] => ret []
  | x :: xs => y <- f x ;; ys <- mapM f xs ;; ret (y :: ys)
  end.

(** [l[i]] *)
Definition getitem {A} (l : list A) (i : nat) : M A :=
  match nth_error l i with
  | Some x => ret x
  | None => raise (PyException "list index out of range")
  end.

(** [str(x)] for a value that is a string or [None]. *)
Definition str_opt (x : option string) : string :=
  match x with
  | Some s => s
  | None => "None"
  end.

(** The truth value of a string or [None]. *)
Definition truthy (x : option string) : bool :=
  match x with
  | Some (String _ _) => true
  | _ => false
  end.

(* ================================================================== *)
(** * The world outside the program *)

(** [TranscribeResponse]: [to_json] is what [to_json(indent=4)] gives. *)
Record Response : Type := { to_json : string }.

Record World : Type := {
  (** [os.makedirs(path, exist_ok=True)] *)
  os_makedirs : string -> result unit;
  (** [subprocess.run(command, check=True, capture_output=True, text=True)]:
      the standard output of a run that exited with status 0, or
      [CalledProcessError] for another status, or what the start of the
      process raised. *)
  subprocess_run : list string -> result string;
  (** [os.listdir(path)] *)
  os_listdir : string -> result (list string);
  (** [os.path.getmtime(path)], as a whole number of time units. *)
  os_path_getmtime : string -> result Z;
  (** [os.getenv(name)] *)
  os_getenv : string -> option string;
  (** [DeepgramClient(api_key)] *)
  DeepgramClient : string -> result unit;
  (** [open(path, mode)] *)
  py_open : string -> string -> result unit;
  (** [f.write(data)] on the file opened at [path]. *)
  file_write : string -> string -> result unit;
  (** [deepgram.listen.rest.v("1").transcribe_file(payload, options)] for the
      client made with [api_key] and the payload read from [path]. *)
  transcribe_file : string -> string -> PrerecordedOptions -> result Response
}.

(** [with open(path, mode) as f: body] *)
Definition with_open {A} (w : World) (path mode : string) (body : M A) : M A :=
  call (OpenFile path mode) (py_open w path mode) ;;;
  finally body (CloseFile path).

(* ================================================================== *)
(** * The fetcher: [download_audio_from_youtube] *)

(** [list.sort(key=..., reverse=True)] on a list of keys and items: by key,
    largest first, and items of equal key in the order they had. *)
Fixpoint insert_desc {A} (x : Z * A) (l : list (Z * A)) : list (Z * A) :=
  match l with
  | [] => [x]
  | y :: l' =>
      if (fst x <? fst y)%Z then y :: insert_desc x l' else x :: y :: l'
  end.

Fixpoint sort_desc {A} (l : list (Z * A)) : list (Z * A) :=
  match l with
  | [] => []
  | x :: xs => insert_desc x (sort_desc xs)
  end.

(** The order of the sorted list: no key is smaller than the next one. *)
Definition key_ge {A} (x y : Z * A) : Prop := (fst y <= fst x)%Z.

(** The test of the first branch of the loop. *)
Definition extract_audio_line (line : string) : bool :=
  PyStr.contains "[ExtractAudio] Destination:" line.

(** The test of its second branch. *)
Definition destination_line (format line : string) : bool :=
  PyStr.contains "Destination:" line && PyStr.endswith line ("." ++ format).

(** The [for line in ...] loop: [Some audio_file] when it ends in [break],
    [None] when the lines run out and the [else] clause is to be run. *)
Fixpoint scan_stdout (format : string) (lines : list string) : M (option string) :=
  match lines with
  | [] => ret None
  | line :: rest =>
      if extract_audio_line line then
        piece <- getitem (PyStr.split line "[ExtractAudio] Destination: ") 1 ;;
        ret (Some (PyStr.strip piece))
      else if destination_line format line then
        piece <- getitem (PyStr.split line "Destination: ") 1 ;;
        ret (Some (PyStr.strip piece))
      else scan_stdout format rest
  end.

(** [[f for f in names if f.endswith(f'.{format}')]] *)
Definition audio_files_of (format : string) (names : list string) : list string :=
  filter (fun f => PyStr.endswith f ("." ++ format)) names.

(** The [else] clause of the loop: the scan of the output directory. *)
Definition scan_directory (w : World) (output_path format : string) : M string :=
  names <- ask (os_listdir w output_path) ;;
  let audio_files := audio_files_of format names in
  match audio_files with
  | _ :: _ =>
      keys <- mapM (fun x => ask (os_path_getmtime w (PosixPath.join output_path x)))
                   audio_files ;;
      let audio_files := map snd (sort_desc (combine keys audio_files)) in
      first <- getitem audio_files 0 ;;
      ret (PosixPath.join output_path first)
  | [] =>
      raise (PyException
               ("Could not find downloaded audio file with format " ++ format))
  end.

Definition yt_dlp_command (url output_path format quality : string) : list string :=
  let output_template := PosixPath.join output_path "%(title)s.%(ext)s" in
  [ "yt-dlp"; "-x"; "--audio-format"; format; "--audio-quality"; quality;
    "-o"; output_template; "--no-playlist"; url ].

(** The [for ... else] statement: the path found in the captured output
    or, when no line stops the loop, in the output directory. *)
Definition locate_audio_file (w : World) (output_path format stdout : string)
  : M string :=
  found <- scan_stdout format (PyStr.split stdout PyStr.LF) ;;
  match found with
  | Some audio_file => ret audio_file
  | None => scan_directory w output_path format
  end.

(** The body of the [try]. *)
Definition download_body (w : World) (url output_path format quality : string)
  : M (option string) :=
  call (MakeDirs output_path) (os_makedirs w output_path) ;;;
  let command := yt_dlp_command url output_path format quality in
  print ("Downloading audio from: " ++ url) ;;;
  stdout <- call (RunProcess command) (subprocess_run w command) ;;
  audio_file <- locate_audio_file w output_path format stdout ;;
  print ("Audio downloaded successfully to: " ++ audio_file) ;;;
  ret (Some audio_file).

(** The two [except] clauses. *)
Definition download_handler (e : exn) : M (option string) :=
  match e with
  | CalledProcessError str_e stderr =>
      print ("Error running yt-dlp: " ++ str_e) ;;;
      print ("Error output: " ++ stderr) ;;;
      ret None
  | PyException str_e =>
      print ("Error downloading audio: " ++ str_e) ;;;
      ret None
  end.

Definition download_audio_from_youtube
  (w : World) (url output_path format quality : string) : M (option string) :=
  try_except (download_body w url output_path format quality) download_handler.

(* ================================================================== *)
(** * The transcriber: [transcribe_audio] *)

Definition transcript_path (audio_file_path : string) : string :=
  fst (PosixPath.splitext audio_file_path) ++ "_transcript.json".

Definition options : PrerecordedOptions :=
  {| model := "nova-3"; language := "en";
     smart_format := true; paragraphs := true; diarize := true |}.

Definition transcribe_body (w : World) (audio_file_path api_key : string) : M unit :=
  ask (DeepgramClient w api_key) ;;;
  with_open w audio_file_path "rb"
    (response <- call (TranscribeFile api_key audio_file_path options)
                      (transcribe_file w api_key audio_file_path options) ;;
     print (PyStr.LF ++ "Transcription Results:") ;;;
     print (to_json response) ;;;
     let transcript_path := transcript_path audio_file_path in
     with_open w transcript_path "w"
       (call (WriteFile transcript_path (to_json response))
             (file_write w transcript_path (to_json response))) ;;;
     print ("Transcript saved to: " ++ transcript_path)).

Definition transcribe_handler (e : exn) : M unit :=
  print ("Error during transcription: " ++ str_exn e).

Definition transcribe_audio (w : World) (audio_file_path api_key : string) : M unit :=
  try_except (transcribe_body w audio_file_path api_key) transcribe_handler.

(* ================================================================== *)
(** * The command line: [main] *)

(** The namespace [parser.parse_args()] returns. *)
Record Args : Type := {
  url : string;
  output : string;
  transcribe : bool;
  format : string;
  quality : string
}.

(** The part of [main] that follows the download.  The test of the first
    [if] leaves only a path and the test of the second only a key, so the
    last branch of the [match] is never run. *)
Definition transcribe_if_requested (w : World) (args : Args)
  (audio_file : option string) : M unit :=
  if transcribe args && truthy audio_file then
    let api_key := os_getenv w "DEEPGRAM_API_KEY" in
    print (str_opt api_key) ;;;
    if negb (truthy api_key) then
      print "Error: DEEPGRAM_API_KEY environment variable is required for transcription." ;;;
      print "Please set it using: export DEEPGRAM_API_KEY='your-api-key'"
    else
      match audio_file, api_key with
      | Some path, Some key => transcribe_audio w path key
      | _, _ => ret tt
      end
  else ret tt.

Definition main (w : World) (args : Args) : M unit :=
  audio_file <- download_audio_from_youtube w (url args) (output args)
                                            (format args) (quality args) ;;
  transcribe_if_requested w args audio_file.

(* ================================================================== *)
(** * What the claims speak of *)

(** A destination line: a line on which the loop stops. *)
Definition matching_line (format line : string) : bool :=
  extract_audio_line line || destination_line format line.

(** The first destination line of the output, in scan order. *)
Definition first_matching_line (format : string) (lines : list string)
  : option string :=
  find (matching_line format) lines.

(** The separator the loop splits a destination line at. *)
Definition separator_of (line : string) : string :=
  if extract_audio_line line
  then "[ExtractAudio] Destination: "
  else "Destination: ".

(** The path parsed from a destination line. *)
Definition parse_destination (line : string) : M (option string) :=
  piece <- getitem (PyStr.split line (separator_of line)) 1 ;;
  ret (Some (PyStr.strip piece)).

(** [sep] does not match in [pre ++ tail] at any index inside [pre]. *)
Fixpoint no_match_before (sep pre tail : string) : bool :=
  match pre with
  | EmptyString => true
  | String _ pre' =>
      negb (String.prefix sep (pre ++ tail)) && no_match_before sep pre' tail
  end.

(** The trace of a download up to the end of the downloader. *)
Definition download_prefix (url output_path format quality : string) : list event :=
  [ MakeDirs output_path;
    Print ("Downloading audio from: " ++ url);
    RunProcess (yt_dlp_command url output_path format quality) ].

(** [a] occurs in [b], character for character. *)
Definition occurs_in (a b : string) : Prop := exists x y, b = x ++ a ++ y.

Definition is_transcribe_event (ev : event) : bool :=
  match ev with
  | TranscribeFile _ _ _ => true
  | _ => false
  end.

(** The events that create or change a file: an [open] for writing and a
    [write]. *)
Definition is_write_event (ev : event) : bool :=
  match ev with
  | OpenFile _ mode => negb (String.eqb mode "rb")
  | WriteFile _ _ => true
  | _ => false
  end.

(** A world for the examples: the directories can be made, the downloader
    ends as [run] says, the output directory [out] holds the files [dir]
    with their modification times, the environment holds [key], every file
    opens and the service answers [answer]. *)
Definition example_world (run : result string) (out : string)
  (dir : list (string * Z)) (key : option string) (answer : result Response)
  : World :=
  {| os_makedirs := fun _ => Ok tt;
     subprocess_run := fun _ => run;
     os_listdir := fun _ => Ok (map fst dir);
     os_path_getmtime := fun p =>
       match find (fun e => String.eqb (PosixPath.join out (fst e)) p) dir with
       | Some e => Ok (snd e)
       | None => Raise (PyException "[Errno 2] No such file or directory")
       end;
     os_getenv := fun _ => key;
     DeepgramClient := fun _ => Ok tt;
     py_open := fun _ _ => Ok tt;
     file_write := fun _ _ => Ok tt;
     transcribe_file := fun _ _ _ => answer |}.

(** The world [w] with a transcription client that cannot be made. *)
Definition without_client (w : World) (e : exn) : World :=
  {| os_makedirs := os_makedirs w;
     subprocess_run := subprocess_run w;
     os_listdir := os_listdir w;
     os_path_getmtime := os_path_getmtime w;
     os_getenv := os_getenv w;
     DeepgramClient := fun _ => Raise e;
     py_open := py_open w;
     file_write := file_write w;
     transcribe_file := transcribe_file w |}.

(** The world [w] in which no directory can be made. *)
Definition without_makedirs (w : World) (e : exn) : World :=
  {| os_makedirs := fun _ => Raise e;
     subprocess_run := subprocess_run w;
     os_listdir := os_listdir w;
     os_path_getmtime := os_path_getmtime w;
     os_getenv := os_getenv w;
     DeepgramClient := DeepgramClient w;
     py_open := py_open w;
     file_write := file_write w;
     transcribe_file := transcribe_file w |}.

(** The world [w] in which the modification time of [path] cannot be read,
    as that of a link to a file that is gone. *)
Definition without_mtime (w : World) (path : string) (e : exn) : World :=
  {| os_makedirs := os_makedirs w;
     subprocess_run := subprocess_run w;
     os_listdir := os_listdir w;
     os_path_getmtime := fun p =>
       if String.eqb p path then Raise e else os_path_getmtime w p;
     os_getenv := os_getenv w;
     DeepgramClient := DeepgramClient w;
     py_open := py_open w;
     file_write := file_write w;
     transcribe_file := transcribe_file w |}.

(** The world [w] in which the file at [path] cannot be opened in [mode]. *)
Definition without_open (w : World) (path mode : string) (e : exn) : World :=
  {| os_makedirs := os_makedirs w;
     subprocess_run := subprocess_run w;
     os_listdir := os_listdir w;
     os_path_getmtime := os_path_getmtime w;
     os_getenv := os_getenv w;
     DeepgramClient := DeepgramClient w;
     py_open := fun p m =>
       if String.eqb p path && String.eqb m mode then Raise e else py_open w p m;
     file_write := file_write w;
     transcribe_file := transcribe_file w |}.

(** The world [w] in which nothing can be written. *)
Definition without_write (w : World) (e : exn) : World :=
  {| os_makedirs := os_makedirs w;
     subprocess_run := subprocess_run w;
     os_listdir := os_listdir w;
     os_path_getmtime := os_path_getmtime w;
     os_getenv := os_getenv w;
     DeepgramClient := DeepgramClient w;
     py_open := py_open w;
     file_write := fun _ _ => Raise e;
     transcribe_file := transcribe_file w |}.

(** The truth value of what a call returned: that of its value, and false
    when it raised. *)
Definition truthy_result (r : result (option string)) : bool :=
  match r with
  | Ok x => truthy x
  | Raise _ => false
  end.

Definition is_run_event (ev : event) : bool :=
  match ev with
  | RunProcess _ => true
  | _ => false
  end.

(** How many events of a trace pass a test. *)
Definition count_events (test : event -> bool) (t : list event) : nat :=
  List.length (filter test t).

(* ================================================================== *)
(** * The stages on a standard output that can refuse a text *)

(** What [print(text)] does on the standard output: nothing more, or the
    exception it raises ([UnicodeEncodeError], [BrokenPipeError]). *)
Definition Console : Type := string -> result unit.

(** The standard output that takes every text, as [print] above has it. *)
Definition accepting : Console := fun _ => Ok tt.

(** A standard output that cannot encode the character [c]. *)
Definition refusing (c : ascii) (e : exn) : Console :=
  fun text => if PyStr.contains (String c "") text then Raise e else Ok tt.

Definition print_to (out : Console) (text : string) : M unit :=
  call (Print text) (out text).

(** The body of the [try] of [download_audio_from_youtube]. *)
Definition download_body_on (out : Console) (w : World)
  (url output_path format quality : string) : M (option string) :=
  call (MakeDirs output_path) (os_makedirs w output_path) ;;;
  let command := yt_dlp_command url output_path format quality in
  print_to out ("Downloading audio from: " ++ url) ;;;
  stdout <- call (RunProcess command) (subprocess_run w command) ;;
  audio_file <- locate_audio_file w output_path format stdout ;;
  print_to out ("Audio downloaded successfully to: " ++ audio_file) ;;;
  ret (Some audio_file).

(** Its two [except] clauses: their prints stand under no [try]. *)
Definition download_handler_on (out : Console) (e : exn) : M (option string) :=
  match e with
  | CalledProcessError str_e stderr =>
      print_to out ("Error running yt-dlp: " ++ str_e) ;;;
      print_to out ("Error output: " ++ stderr) ;;;
      ret None
  | PyException str_e =>
      print_to out ("Error downloading audio: " ++ str_e) ;;;
      ret None
  end.

Definition download_audio_from_youtube_on (out : Console) (w : World)
  (url output_path format quality : string) : M (option string) :=
  try_except (download_body_on out w url output_path format quality)
             (download_handler_on out).

(** The body of the [try] of [transcribe_audio]. *)
Definition transcribe_body_on (out : Console) (w : World)
  (audio_file_path api_key : string) : M unit :=
  ask (DeepgramClient w api_key) ;;;
  with_open w audio_file_path "rb"
    (response <- call (TranscribeFile api_key audio_file_path options)
                      (transcribe_file w api_key audio_file_path options) ;;
     print_to out (PyStr.LF ++ "Transcription Results:") ;;;
     print_to out (to_json response) ;;;
     let transcript_path := transcript_path audio_file_path in
     with_open w transcript_path "w"
       (call (WriteFile transcript_path (to_json response))
             (file_write w transcript_path (to_json response))) ;;;
     print_to out ("Transcript saved to: " ++ transcript_path)).

Definition transcribe_handler_on (out : Console) (e : exn) : M unit :=
  print_to out ("Error during transcription: " ++ str_exn e).

Definition transcribe_audio_on (out : Console) (w : World)
  (audio_file_path api_key : string) : M unit :=
  try_except (transcribe_body_on out w audio_file_path api_key)
             (transcribe_handler_on out).

(** The texts the [except] clauses of the download print for [e]. *)
Definition download_reports (e : exn) : list string :=
  match e with
  | CalledProcessError str_e stderr =>
      ["Error running yt-dlp: " ++ str_e; "Error output: " ++ stderr]
  | PyException str_e => ["Error downloading audio: " ++ str_e]
  end.

(** The text the [except] clause of the transcription prints for [e]. *)
Definition transcribe_report (e : exn) : string :=
  "Error during transcription: " ++ str_exn e.

(** A string of dots, as the start of a file name like [.bashrc] or [..]. *)
Fixpoint only_dots (s : string) : bool :=
  match s with
  | EmptyString => true
  | String c s' => Ascii.eqb c "." && only_dots s'
  end.

(** [dir] is empty or ends with a separator: what follows it starts a
    component of the path. *)
Definition ends_directory (dir : string) : Prop :=
  dir = "" \/ exists d, dir = d ++ "/".

(** Case analysis on the membership of an event in a trace that is written
    out: [tac] closes the goal for each event of the trace. *)
Ltac each_event H tac :=
  repeat (destruct H as [<- | H]; [tac |]); destruct H.

(* ================================================================== *)
(** * Strings and paths *)

Example split_on_separator : PyStr.split "a, b, c" ", " = ["a"; "b"; "c"].
Proof. reflexivity. Qed.

Example split_does_not_overlap : PyStr.split "aaa" "aa" = [""; "a"].
Proof. reflexivity. Qed.

Example split_at_the_end : PyStr.split "xab" "ab" = ["x"; ""].
Proof. reflexivity. Qed.

Example split_lines :
  PyStr.split ("one" ++ PyStr.LF ++ "two" ++ PyStr.LF) PyStr.LF = ["one"; "two"; ""].
Proof. reflexivity. Qed.

Example strip_both_ends : PyStr.strip "  a b  " = "a b".
Proof. reflexivity. Qed.

Example endswith_format : PyStr.endswith "clip.wav" ".wav" = true.
Proof. reflexivity. Qed.

Example endswith_other_format : PyStr.endswith "clip.wav.part" ".wav" = false.
Proof. reflexivity. Qed.

Example join_after_separator : PosixPath.join "./" "a.wav" = "./a.wav".
Proof. reflexivity. Qed.

Example join_adds_separator : PosixPath.join "out" "a.wav" = "out/a.wav".
Proof. reflexivity. Qed.

Example join_absolute : PosixPath.join "out" "/a.wav" = "/a.wav".
Proof. reflexivity. Qed.

Example splitext_extension :
  PosixPath.splitext "/tmp/song.wav" = ("/tmp/song", ".wav").
Proof. reflexivity. Qed.

Example splitext_leading_dot :
  PosixPath.splitext "/tmp/.bashrc" = ("/tmp/.bashrc", "").
Proof. reflexivity. Qed.

Example splitext_dot_in_directory :
  PosixPath.splitext "/tmp.d/song" = ("/tmp.d/song", "").
Proof. reflexivity. Qed.

Example splitext_last_dot : PosixPath.splitext "..a.b" = ("..a", ".b").
Proof. reflexivity. Qed.

Lemma prefix_app (sep rest : string) : String.prefix sep (sep ++ rest) = true.
Proof.
  induction sep as [|c sep IH]; simpl; [now destruct rest|].
  destruct (ascii_dec c c) as [_|ne]; [exact IH | now elim ne].
Qed.

Lemma endswith_app (pre suf : string) : PyStr.endswith (pre ++ suf) suf = true.
Proof.
  induction pre as [|c pre IH].
  - change ("" ++ suf) with suf.
    destruct suf; cbn [PyStr.endswith]; now rewrite String.eqb_refl.
  - change (String c pre ++ suf) with (String c (pre ++ suf)).
    cbn [PyStr.endswith]. rewrite IH. apply orb_true_r.
Qed.

Lemma endswith_inv (s suf : string) :
  PyStr.endswith s suf = true -> exists pre, s = pre ++ suf.
Proof.
  induction s as [|c s IH]; cbn [PyStr.endswith]; intros H.
  - apply orb_true_iff in H as [H|H]; [|discriminate].
    apply String.eqb_eq in H. exists "". now subst.
  - apply orb_true_iff in H as [H|H].
    + apply String.eqb_eq in H. exists "". now subst.
    + destruct (IH H) as [pre ->]. now exists (String c pre).
Qed.

(** A string in which the separator does not occur is one piece. *)
Lemma split_without_separator (s sep : string) :
  PyStr.contains sep s = false -> PyStr.split s sep = [s].
Proof.
  unfold PyStr.split.
  induction s as [|c s IH]; intros H.
  - reflexivity.
  - cbn [PyStr.contains] in H. apply orb_false_iff in H as [Hp Hc].
    cbn [PyStr.split_from]. rewrite Hp, (IH Hc). reflexivity.
Qed.

Lemma split_from_skip (sep a rest : string) :
  PyStr.split_from sep (String.length a) (a ++ rest) = PyStr.split_from sep 0 rest.
Proof. induction a as [|c a IH]; simpl; [reflexivity | exact IH]. Qed.

Lemma split_from_match (sep rest : string) :
  sep <> "" ->
  PyStr.split_from sep 0 (sep ++ rest) = "" :: PyStr.split_from sep 0 rest.
Proof.
  intros Hne. destruct sep as [|c sep]; [now elim Hne|].
  change (String c sep ++ rest) with (String c (sep ++ rest)).
  cbn [PyStr.split_from].
  change (String c (sep ++ rest)) with (String c sep ++ rest).
  rewrite prefix_app. f_equal.
  replace (String.length (String c sep) - 1) with (String.length sep)
    by (simpl; lia).
  apply split_from_skip.
Qed.

(** The first piece ends where the separator first matches. *)
Lemma split_at_first_match (sep pre rest : string) :
  sep <> "" ->
  no_match_before sep pre (sep ++ rest) = true ->
  PyStr.split (pre ++ sep ++ rest) sep = pre :: PyStr.split rest sep.
Proof.
  intros Hne. unfold PyStr.split.
  induction pre as [|c pre IH]; intros H.
  - exact (split_from_match sep rest Hne).
  - cbn [no_match_before] in H. apply andb_true_iff in H as [Hp Hrest].
    apply negb_true_iff in Hp.
    change (String c pre ++ sep ++ rest) with (String c (pre ++ sep ++ rest)) in *.
    cbn [PyStr.split_from]. rewrite Hp, (IH Hrest). reflexivity.
Qed.

(** The second piece of a line in which the separator occurs once. *)
Lemma split_second_piece (sep pre rest : string) :
  sep <> "" ->
  no_match_before sep pre (sep ++ rest) = true ->
  PyStr.contains sep rest = false ->
  PyStr.split (pre ++ sep ++ rest) sep = [pre; rest].
Proof.
  intros Hne Hpre Hrest.
  rewrite (split_at_first_match _ _ _ Hne Hpre).
  now rewrite (split_without_separator _ _ Hrest).
Qed.

Lemma substring_prefix (pre rest : string) :
  String.substring 0 (String.length pre) (pre ++ rest) = pre.
Proof.
  induction pre as [|c pre IH]; simpl.
  - now destruct rest.
  - now rewrite IH.
Qed.

Lemma substring_suffix (pre rest : string) :
  String.substring (String.length pre)
                   (String.length (pre ++ rest) - String.length pre)
                   (pre ++ rest) = rest.
Proof.
  induction pre as [|c pre IH]; simpl.
  - rewrite Nat.sub_0_r. induction rest as [|d rest IHr]; simpl; [reflexivity|].
    now rewrite IHr.
  - exact IH.
Qed.

(** [c in s] for a single character. *)
Lemma contains_char_cons (c d : ascii) (s : string) :
  PyStr.contains (String c "") (String d s)
  = Ascii.eqb c d || PyStr.contains (String c "") s.
Proof.
  cbn [PyStr.contains String.prefix].
  destruct (ascii_dec c d) as [->|ne].
  - rewrite Ascii.eqb_refl. now destruct s.
  - apply Ascii.eqb_neq in ne. now rewrite ne.
Qed.

Lemma contains_char_app (c : ascii) (a b : string) :
  PyStr.contains (String c "") (a ++ b) = false ->
  PyStr.contains (String c "") b = false.
Proof.
  induction a as [|d a IH]; [trivial|].
  change (String d a ++ b) with (String d (a ++ b)).
  rewrite contains_char_cons. intros H.
  apply orb_false_iff in H as [_ H]. now apply IH.
Qed.

Lemma contains_char_append (c : ascii) (a b : string) :
  PyStr.contains (String c "") (a ++ b)
  = PyStr.contains (String c "") a || PyStr.contains (String c "") b.
Proof.
  induction a as [|d a IH].
  - change ("" ++ b) with b. cbn [PyStr.contains String.prefix orb]. reflexivity.
  - change (String d a ++ b) with (String d (a ++ b)).
    rewrite !contains_char_cons, IH. apply orb_assoc.
Qed.

(** What [rfind] finds: nothing, or the last occurrence. *)
Lemma rfind_from_spec (c : ascii) (s : string) : forall i last : Z,
  (PyStr.contains (String c "") s = false
   /\ PosixPath.rfind_from c i last s = last)
  \/ (exists pre post,
        s = pre ++ String c post
        /\ PyStr.contains (String c "") post = false
        /\ PosixPath.rfind_from c i last s = (i + Z.of_nat (String.length pre))%Z).
Proof.
  induction s as [|d s IH]; intros i last.
  - left. split; reflexivity.
  - cbn [PosixPath.rfind_from].
    destruct (IH (i + 1)%Z (if Ascii.eqb d c then i else last))
      as [[Hno Hr] | (pre & post & Hs & Hno & Hr)].
    + destruct (Ascii.eqb d c) eqn:E.
      * apply Ascii.eqb_eq in E. subst d. right. exists "", s.
        repeat split; trivial. rewrite Hr. simpl. lia.
      * left. split; [|exact Hr].
        rewrite contains_char_cons, Hno, Ascii.eqb_sym, E. reflexivity.
    + right. exists (String d pre), post. subst s.
      repeat split; trivial. rewrite Hr. cbn [String.length]. lia.
Qed.

Lemma app_split_shorter (a b a' b' : string) :
  a ++ b = a' ++ b' ->
  String.length a' < String.length a ->
  exists d m, b' = String d m ++ b.
Proof.
  revert a'. induction a as [|c a IH]; intros a' H Hlen.
  - simpl in Hlen. lia.
  - destruct a' as [|c' a'].
    + exists c, a. symmetry. exact H.
    + simpl in H. injection H as _ H. simpl in Hlen.
      apply (IH a' H). lia.
Qed.

(** [splitext] cuts the path in two, and what it cuts off is empty or is a
    dot followed by characters that are neither a dot nor a separator. *)
Lemma splitext_spec (p : string) :
  fst (PosixPath.splitext p) ++ snd (PosixPath.splitext p) = p
  /\ (snd (PosixPath.splitext p) = ""
      \/ exists e, snd (PosixPath.splitext p) = String "." e
                   /\ PyStr.contains "." e = false
                   /\ PyStr.contains "/" e = false).
Proof.
  assert (Hempty : forall s : string, s ++ "" = s)
    by (induction s as [|c s IH]; simpl; [reflexivity | now rewrite IH]).
  unfold PosixPath.splitext, PosixPath.rfind.
  destruct (rfind_from_spec "." p 0 (-1)) as [[_ Hd] | (pre & post & Hp & Hno & Hd)];
    rewrite Hd.
  - destruct (rfind_from_spec "/" p 0 (-1)) as [[_ Hs] | (pre' & post' & _ & _ & Hs)];
      rewrite Hs.
    + simpl. split; [apply Hempty | now left].
    + replace (_ <? _)%Z with false by (symmetry; apply Z.ltb_ge; lia).
      simpl. split; [apply Hempty | now left].
  - destruct (_ <? _)%Z eqn:Hlt; [| simpl; split; [apply Hempty | now left]].
    destruct (PosixPath.name_before_dot _ _ _);
      [| simpl; split; [apply Hempty | now left]].
    replace (Z.to_nat (0 + Z.of_nat (String.length pre))) with (String.length pre)
      by lia.
    cbn [fst snd]. apply Z.ltb_lt in Hlt.
    assert (Hsep : PyStr.contains "/" post = false).
    { destruct (rfind_from_spec "/" p 0 (-1))
        as [[Hs _] | (pre' & post' & Hp' & Hno' & Hs)].
      - rewrite Hp in Hs. apply contains_char_app in Hs.
        rewrite contains_char_cons in Hs. now apply orb_false_iff in Hs.
      - rewrite Hs in Hlt.
        assert (Hlen : String.length pre' < String.length pre) by lia.
        rewrite Hp in Hp'.
        destruct (app_split_shorter _ _ _ _ Hp' Hlen) as (d & m & Hm).
        simpl in Hm. injection Hm as _ Hm. rewrite Hm in Hno'.
        apply contains_char_app in Hno'.
        rewrite contains_char_cons in Hno'. now apply orb_false_iff in Hno'. }
    clear Hd Hlt. subst p. rewrite substring_prefix, substring_suffix.
    split; [reflexivity|]. right. exists post. repeat split; trivial.
Qed.

(* ================================================================== *)
(** * Where the pieces of a string come from *)

Lemma append_assoc (a b c : string) : (a ++ b) ++ c = a ++ b ++ c.
Proof. induction a as [|d a IH]; simpl; [reflexivity | now rewrite IH]. Qed.

Lemma append_empty_r (a : string) : a ++ "" = a.
Proof. induction a as [|d a IH]; simpl; [reflexivity | now rewrite IH]. Qed.

Lemma occurs_in_refl (a : string) : occurs_in a a.
Proof. exists "", "". simpl. now rewrite append_empty_r. Qed.

Lemma occurs_in_trans (a b c : string) :
  occurs_in a b -> occurs_in b c -> occurs_in a c.
Proof.
  intros (x & y & ->) (x' & y' & ->).
  exists (x' ++ x), (y ++ y'). now rewrite !append_assoc.
Qed.

Lemma occurs_in_cons (a b : string) (c : ascii) :
  occurs_in a b -> occurs_in a (String c b).
Proof. intros (x & y & ->). now exists (String c x), y. Qed.

Lemma occurs_in_contains (a b : string) :
  occurs_in a b -> PyStr.contains a b = true.
Proof.
  intros (x & y & ->). induction x as [|c x IH].
  - change ("" ++ a ++ y) with (a ++ y).
    destruct (a ++ y) eqn:E; cbn [PyStr.contains]; rewrite <- E, prefix_app;
      reflexivity.
  - change (String c x ++ a ++ y) with (String c (x ++ a ++ y)).
    cbn [PyStr.contains]. rewrite IH. apply orb_true_r.
Qed.

Lemma lstrip_suffix (s : string) : exists x, s = x ++ PyStr.lstrip s.
Proof.
  induction s as [|c s [x IH]]; [now exists ""|].
  cbn [PyStr.lstrip]. destruct (PyStr.isspace c); [|now exists ""].
  exists (String c x). simpl. now rewrite <- IH.
Qed.

Lemma rstrip_prefix (s : string) : exists y, s = PyStr.rstrip s ++ y.
Proof.
  induction s as [|c s [y IH]]; [now exists ""|].
  cbn [PyStr.rstrip]. destruct (PyStr.rstrip s) as [|d r].
  - destruct (PyStr.isspace c); [now exists (String c s) | now exists s].
  - exists y. simpl. now rewrite IH at 1.
Qed.

(** What [strip] returns occurs in what it was given. *)
Lemma strip_occurs (s : string) : occurs_in (PyStr.strip s) s.
Proof.
  unfold PyStr.strip.
  destruct (lstrip_suffix s) as [x Hx].
  destruct (rstrip_prefix (PyStr.lstrip s)) as [y Hy].
  exists x, y. now rewrite <- Hy.
Qed.

(** Every piece of a split occurs in the string that was split; the first
    one starts it when no separator is being passed over. *)
Lemma split_from_pieces (sep s : string) : forall skip,
  exists h tl,
    PyStr.split_from sep skip s = h :: tl
    /\ (skip = 0 -> exists y, s = h ++ y)
    /\ occurs_in h s
    /\ forall p, In p tl -> occurs_in p s.
Proof.
  induction s as [|c s IH]; intros skip.
  - exists "", []. split; [reflexivity|]. split; [now exists ""|].
    split; [apply occurs_in_refl | intros p []].
  - cbn [PyStr.split_from]. destruct skip as [|k].
    + destruct (String.prefix sep (String c s)).
      * destruct (IH (String.length sep - 1)) as (h & tl & -> & _ & Hh & Htl).
        exists "", (h :: tl). repeat split.
        -- intros _. now exists (String c s).
        -- now exists "", (String c s).
        -- intros p [<-|Hp]; apply occurs_in_cons; auto.
      * destruct (IH 0) as (h & tl & -> & Hpre & _ & Htl).
        destruct (Hpre eq_refl) as [y Hy].
        exists (String c h), tl. cbn [PyStr.push_front]. repeat split.
        -- intros _. exists y. simpl. now rewrite <- Hy.
        -- exists "", y. simpl. now rewrite <- Hy.
        -- intros p Hp. apply occurs_in_cons; auto.
    + destruct (IH k) as (h & tl & -> & _ & Hh & Htl).
      exists h, tl. repeat split.
      * discriminate.
      * now apply occurs_in_cons.
      * intros p Hp. apply occurs_in_cons; auto.
Qed.

Lemma split_piece_occurs (s sep piece : string) :
  In piece (PyStr.split s sep) -> occurs_in piece s.
Proof.
  unfold PyStr.split.
  destruct (split_from_pieces sep s 0) as (h & tl & -> & _ & Hh & Htl).
  intros [<-|Hp]; auto.
Qed.

(* ================================================================== *)
(** * The sort of the directory scan *)

Example sort_desc_is_stable :
  sort_desc [(1%Z, "a"); (3%Z, "b"); (2%Z, "c"); (3%Z, "d")]
  = [(3%Z, "b"); (3%Z, "d"); (2%Z, "c"); (1%Z, "a")].
Proof. reflexivity. Qed.

Lemma insert_desc_perm {A} (x : Z * A) (l : list (Z * A)) :
  Permutation (insert_desc x l) (x :: l).
Proof.
  induction l as [|y l IH]; simpl; [apply Permutation_refl|].
  destruct (fst x <? fst y)%Z.
  - eapply perm_trans; [apply perm_skip, IH | apply perm_swap].
  - apply Permutation_refl.
Qed.

Lemma sort_desc_perm {A} (l : list (Z * A)) : Permutation (sort_desc l) l.
Proof.
  induction l as [|x l IH]; simpl; [constructor|].
  eapply perm_trans; [apply insert_desc_perm | now apply perm_skip].
Qed.

Lemma insert_desc_sorted {A} (x : Z * A) (l : list (Z * A)) :
  Sorted key_ge l -> Sorted key_ge (insert_desc x l).
Proof.
  induction 1 as [|y l Hs IH Hhd]; simpl.
  - repeat constructor.
  - destruct (fst x <? fst y)%Z eqn:E.
    + constructor; [exact IH|].
      destruct l as [|z l]; simpl.
      * constructor. apply Z.ltb_lt in E. unfold key_ge. lia.
      * inversion Hhd; subst. destruct (fst x <? fst z)%Z.
        -- now constructor.
        -- constructor. apply Z.ltb_lt in E. unfold key_ge. lia.
    + constructor; [now constructor|].
      constructor. apply Z.ltb_ge in E. exact E.
Qed.

Lemma sort_desc_sorted {A} (l : list (Z * A)) : Sorted key_ge (sort_desc l).
Proof.
  induction l as [|x l IH]; simpl; [constructor | now apply insert_desc_sorted].
Qed.

(** The sorted list starts with an item of the largest key. *)
Lemma sort_desc_head {A} (l : list (Z * A)) :
  l <> [] ->
  exists x r, sort_desc l = x :: r
              /\ In x l /\ forall y, In y l -> (fst y <= fst x)%Z.
Proof.
  induction l as [|x l IH]; [congruence|]. intros _.
  destruct l as [|x' l].
  - exists x, []. simpl. repeat split; auto.
    intros y [<-|[]]. lia.
  - destruct IH as (m & r & Hs & Hin & Hmax); [congruence|].
    cbn [sort_desc] in *. rewrite Hs. cbn [insert_desc].
    destruct (fst x <? fst m)%Z eqn:E.
    + exists m, (insert_desc x r). repeat split; [now right|].
      intros y [<-|Hy]; [apply Z.ltb_lt in E; lia | now apply Hmax].
    + exists x, (m :: r). repeat split; [now left|].
      apply Z.ltb_ge in E.
      intros y [<-|Hy]; [lia | specialize (Hmax y Hy); lia].
Qed.

(** Among the items of the largest key, the one that came first is at the
    head. *)
Lemma sort_desc_head_first {A} (a b : list (Z * A)) (x : Z * A) :
  (forall y, In y a -> (fst y < fst x)%Z) ->
  (forall y, In y b -> (fst y <= fst x)%Z) ->
  exists r, sort_desc (a ++ x :: b) = x :: r.
Proof.
  intros Ha Hb. induction a as [|y a IH].
  - cbn [app sort_desc].
    destruct b as [|z b]; [now exists []|].
    destruct (sort_desc_head (z :: b)) as (m & r & Hs & Hin & _); [congruence|].
    rewrite Hs. cbn [insert_desc].
    replace (fst x <? fst m)%Z with false
      by (symmetry; apply Z.ltb_ge; now apply Hb).
    now exists (m :: r).
  - destruct IH as [r Hr]; [intros z Hz; apply Ha; now right|].
    cbn [app sort_desc]. rewrite Hr. cbn [insert_desc].
    replace (fst y <? fst x)%Z with true
      by (symmetry; apply Z.ltb_lt; apply Ha; now left).
    now exists (insert_desc y r).
Qed.

(* ================================================================== *)
(** * The fetcher: finding the file *)

Lemma mapM_ask_ok {A B} (f : A -> result B) (l : list A) :
  (forall x, In x l -> exists y, f x = Ok y) ->
  exists ys, mapM (fun x => ask (f x)) l = ([], Ok ys)
             /\ Forall2 (fun x y => f x = Ok y) l ys.
Proof.
  induction l as [|x l IH]; intros H.
  - exists []. split; [reflexivity | constructor].
  - destruct (H x (or_introl eq_refl)) as [y Hy].
    destruct IH as (ys & Hm & Hall); [intros z Hz; apply H; now right|].
    exists (y :: ys). split; [|now constructor].
    cbn [mapM]. unfold bind, ask at 1. rewrite Hy, Hm. reflexivity.
Qed.

Lemma Forall2_combine_in {A B} (R : A -> B -> Prop) (l : list A) (ys : list B) :
  Forall2 R l ys -> forall x y, In (y, x) (combine ys l) -> R x y.
Proof.
  induction 1 as [|a b l ys Hab _ IH]; intros x y Hin; [destruct Hin|].
  destruct Hin as [E|Hin]; [now inversion E; subst | now apply IH].
Qed.


Lemma find_all_false {A} (f : A -> bool) (l : list A) :
  (forall x, In x l -> f x = false) -> find f l = None.
Proof.
  induction l as [|x l IH]; intros H; [reflexivity|].
  cbn [find]. rewrite (H x (or_introl eq_refl)).
  apply IH. intros y Hy. apply H. now right.
Qed.

(** A destination line is the first one whatever the lines after it are. *)
Lemma first_matching_line_app (format line : string) (before after : list string) :
  (forall l, In l before -> matching_line format l = false) ->
  matching_line format line = true ->
  first_matching_line format (before ++ line :: after) = Some line.
Proof.
  intros Hb Hl. unfold first_matching_line.
  induction before as [|l before IH]; cbn [app find].
  - now rewrite Hl.
  - rewrite (Hb l (or_introl eq_refl)). apply IH.
    intros l' Hl'. apply Hb. now right.
Qed.

(** First match wins: the loop stops at the first destination line and
    parses that line, whatever follows it. *)
Lemma scan_stdout_first_match (format : string) (lines : list string) :
  scan_stdout format lines
  = match first_matching_line format lines with
    | Some line => parse_destination line
    | None => ret None
    end.
Proof.
  unfold first_matching_line.
  induction lines as [|line rest IH]; [reflexivity|].
  cbn [scan_stdout find]. unfold matching_line at 1.
  destruct (extract_audio_line line) eqn:E1; cbn [orb].
  - unfold parse_destination, separator_of. now rewrite E1.
  - destruct (destination_line format line); [|exact IH].
    unfold parse_destination, separator_of. now rewrite E1.
Qed.

(** The path parsed from a destination line in which the separator occurs
    once: what follows the separator, stripped. *)
Lemma parse_destination_path (line pre rest : string) :
  line = pre ++ separator_of line ++ rest ->
  no_match_before (separator_of line) pre (separator_of line ++ rest) = true ->
  PyStr.contains (separator_of line) rest = false ->
  parse_destination line = ([], Ok (Some (PyStr.strip rest))).
Proof.
  intros Hline Hpre Hrest. unfold parse_destination.
  assert (Hne : separator_of line <> "")
    by (unfold separator_of; destruct (extract_audio_line line); discriminate).
  rewrite Hline at 1.
  now rewrite (split_second_piece _ _ _ Hne Hpre Hrest).
Qed.

Lemma getitem_trace {A} (l : list A) (i : nat) : fst (getitem l i) = [].
Proof. unfold getitem. now destruct (nth_error l i). Qed.

Lemma parse_destination_trace (line : string) : fst (parse_destination line) = [].
Proof.
  unfold parse_destination, bind, getitem.
  now destruct (nth_error _ 1).
Qed.

Lemma scan_stdout_trace (format : string) (lines : list string) :
  fst (scan_stdout format lines) = [].
Proof.
  rewrite scan_stdout_first_match.
  destruct (first_matching_line format lines);
    [apply parse_destination_trace | reflexivity].
Qed.

Lemma mapM_ask_trace {A B} (f : A -> result B) (l : list A) :
  fst (mapM (fun x => ask (f x)) l) = [].
Proof.
  induction l as [|x l IH]; [reflexivity|].
  cbn [mapM]. unfold bind, ask at 1.
  destruct (f x); [|reflexivity].
  destruct (mapM _ l) as [t [ys|e]]; simpl in *; now subst.
Qed.

Lemma scan_directory_trace (w : World) (output_path format : string) :
  fst (scan_directory w output_path format) = [].
Proof.
  unfold scan_directory, bind, ask at 1.
  destruct (os_listdir w output_path) as [names|e]; [|reflexivity].
  destruct (audio_files_of format names) as [|f fs]; [reflexivity|].
  pose proof (mapM_ask_trace
                (fun x => os_path_getmtime w (PosixPath.join output_path x))
                (f :: fs)) as Hm.
  destruct (mapM _ (f :: fs)) as [t [keys|e]]; simpl in Hm; subst t;
    [|reflexivity].
  unfold getitem. now destruct (nth_error _ 0).
Qed.

(** Looking for the file prints nothing and changes nothing. *)
Lemma locate_audio_file_trace (w : World) (output_path format stdout : string) :
  fst (locate_audio_file w output_path format stdout) = [].
Proof.
  unfold locate_audio_file, bind.
  pose proof (scan_stdout_trace format (PyStr.split stdout PyStr.LF)) as Hs.
  destruct (scan_stdout _ _) as [t [[f|]|e]]; simpl in Hs; subst t;
    try reflexivity.
  pose proof (scan_directory_trace w output_path format) as Hd.
  now destruct (scan_directory _ _ _) as [t r].
Qed.

(** With no destination line, the file is looked for in the directory. *)
Lemma locate_without_destination (w : World) (output_path format stdout : string) :
  first_matching_line format (PyStr.split stdout PyStr.LF) = None ->
  locate_audio_file w output_path format stdout
  = scan_directory w output_path format.
Proof.
  intros Hnone. unfold locate_audio_file.
  rewrite scan_stdout_first_match, Hnone. unfold bind, ret.
  pose proof (scan_directory_trace w output_path format) as Ht.
  destruct (scan_directory _ _ _) as [t r]. simpl in Ht. now subst t.
Qed.

(** With a destination line, only that line decides the outcome. *)
Lemma locate_with_destination (w : World) (output_path format stdout line : string) :
  first_matching_line format (PyStr.split stdout PyStr.LF) = Some line ->
  locate_audio_file w output_path format stdout
  = match nth_error (PyStr.split line (separator_of line)) 1 with
    | Some piece => ([], Ok (PyStr.strip piece))
    | None => ([], Raise (PyException "list index out of range"))
    end.
Proof.
  intros Hsome. unfold locate_audio_file.
  rewrite scan_stdout_first_match, Hsome.
  unfold parse_destination, getitem, bind, ret, raise.
  now destruct (nth_error _ 1).
Qed.


(** The directory scan fails when no file of the format is there. *)
Lemma scan_directory_empty (w : World) (output_path format : string)
  (names : list string) :
  os_listdir w output_path = Ok names ->
  audio_files_of format names = [] ->
  scan_directory w output_path format
  = ([], Raise (PyException
                  ("Could not find downloaded audio file with format " ++ format))).
Proof.
  intros Hls He. unfold scan_directory, bind, ask. now rewrite Hls, He.
Qed.

(** A path the directory scan returns names a listed file of the format. *)
Lemma scan_directory_returns (w : World) (output_path format p : string)
  (t : list event) :
  scan_directory w output_path format = (t, Ok p) ->
  exists names f,
    os_listdir w output_path = Ok names
    /\ In f names
    /\ PyStr.endswith f ("." ++ format) = true
    /\ p = PosixPath.join output_path f.
Proof.
  unfold scan_directory, bind, ask at 1.
  destruct (os_listdir w output_path) as [names|e]; [|discriminate].
  destruct (audio_files_of format names) as [|a fs] eqn:Ea; [discriminate|].
  destruct (mapM _ (a :: fs)) as [t' [keys|e]]; [|discriminate].
  destruct (map snd (sort_desc (combine keys (a :: fs)))) as [|first rest] eqn:Es;
    [discriminate|].
  cbn [getitem nth_error ret]. intros H. injection H as _ <-.
  exists names, first. split; [reflexivity|].
  assert (Hin : In first (a :: fs)).
  { assert (Hf : In first (map snd (sort_desc (combine keys (a :: fs)))))
      by (rewrite Es; now left).
    apply in_map_iff in Hf as ([k f] & <- & Hx).
    apply (Permutation_in _ (sort_desc_perm _)) in Hx.
    exact (in_combine_r _ _ _ _ Hx). }
  rewrite <- Ea in Hin. unfold audio_files_of in Hin.
  apply filter_In in Hin as [Hin Hext]. now repeat split.
Qed.

(* ================================================================== *)
(** * The fetcher: the download *)

(** What the handlers print, and that they return [None]. *)
Lemma download_handler_spec (e : exn) :
  download_handler e
  = (match e with
     | CalledProcessError str_e stderr =>
         [Print ("Error running yt-dlp: " ++ str_e);
          Print ("Error output: " ++ stderr)]
     | PyException str_e => [Print ("Error downloading audio: " ++ str_e)]
     end, Ok None).
Proof. now destruct e. Qed.

Lemma download_subprocess_failure
  (w : World) (url output_path format quality : string) (e : exn) :
  os_makedirs w output_path = Ok tt ->
  subprocess_run w (yt_dlp_command url output_path format quality) = Raise e ->
  download_audio_from_youtube w url output_path format quality
  = ((download_prefix url output_path format quality
      ++ fst (download_handler e))%list,
     Ok None).
Proof.
  intros Hmk Hrun.
  unfold download_audio_from_youtube, download_body, bind, call, print.
  rewrite Hmk, Hrun. unfold try_except.
  rewrite download_handler_spec. now destruct e.
Qed.

Lemma download_catches
  (w : World) (url output_path format quality : string) (t : list event) (e : exn) :
  download_body w url output_path format quality = (t, Raise e) ->
  download_audio_from_youtube w url output_path format quality
  = ((t ++ fst (download_handler e))%list, Ok None).
Proof.
  intros Hb. unfold download_audio_from_youtube, try_except. rewrite Hb.
  now rewrite download_handler_spec.
Qed.

Lemma download_returns (w : World) (url output_path format quality : string) :
  exists t r,
    download_audio_from_youtube w url output_path format quality = (t, Ok r).
Proof.
  destruct (download_body w url output_path format quality) as [t [r|e]] eqn:Hb.
  - exists t, r. unfold download_audio_from_youtube, try_except. now rewrite Hb.
  - eexists _, None. exact (download_catches _ _ _ _ _ _ _ Hb).
Qed.

(** The directory was made and the downloader exited with status 0. *)
Section AfterTheDownloader.

Variable w : World.
Variables url output_path format quality stdout : string.

Hypothesis made : os_makedirs w output_path = Ok tt.
Hypothesis ran :
  subprocess_run w (yt_dlp_command url output_path format quality) = Ok stdout.

Lemma download_located (f : string) :
  snd (locate_audio_file w output_path format stdout) = Ok f ->
  download_audio_from_youtube w url output_path format quality
  = ((download_prefix url output_path format quality
      ++ [Print ("Audio downloaded successfully to: " ++ f)])%list,
     Ok (Some f)).
Proof.
  intros Hloc.
  pose proof (locate_audio_file_trace w output_path format stdout) as Ht.
  unfold download_audio_from_youtube, download_body, bind, call, print.
  rewrite made, ran.
  destruct (locate_audio_file _ _ _ _) as [t r]. simpl in Ht, Hloc. subst t r.
  reflexivity.
Qed.

Lemma download_not_located (e : exn) :
  snd (locate_audio_file w output_path format stdout) = Raise e ->
  download_audio_from_youtube w url output_path format quality
  = ((download_prefix url output_path format quality
      ++ fst (download_handler e))%list,
     Ok None).
Proof.
  intros Hloc.
  pose proof (locate_audio_file_trace w output_path format stdout) as Ht.
  unfold download_audio_from_youtube, download_body, bind, call, print.
  rewrite made, ran.
  destruct (locate_audio_file _ _ _ _) as [t r]. simpl in Ht, Hloc. subst t r.
  unfold try_except. rewrite download_handler_spec. now destruct e.
Qed.

(** First match wins: when the first destination line has a second piece,
    the download returns that piece, stripped. *)
Lemma download_first_match (line piece : string) :
  first_matching_line format (PyStr.split stdout PyStr.LF) = Some line ->
  nth_error (PyStr.split line (separator_of line)) 1 = Some piece ->
  download_audio_from_youtube w url output_path format quality
  = ((download_prefix url output_path format quality
      ++ [Print ("Audio downloaded successfully to: " ++ PyStr.strip piece)])%list,
     Ok (Some (PyStr.strip piece))).
Proof.
  intros Hsome Hpiece. apply download_located.
  now rewrite (locate_with_destination _ _ _ _ _ Hsome), Hpiece.
Qed.

(** A destination line without its separator: the index fails and the
    generic handler turns that into [None]. *)
Lemma download_missing_separator (line : string) :
  first_matching_line format (PyStr.split stdout PyStr.LF) = Some line ->
  PyStr.contains (separator_of line) line = false ->
  download_audio_from_youtube w url output_path format quality
  = ((download_prefix url output_path format quality
      ++ [Print "Error downloading audio: list index out of range"])%list,
     Ok None).
Proof.
  intros Hsome Hsep.
  rewrite (download_not_located (PyException "list index out of range"));
    [reflexivity|].
  rewrite (locate_with_destination _ _ _ _ _ Hsome).
  now rewrite (split_without_separator _ _ Hsep).
Qed.

(** The file-resolution failure. *)
Lemma download_no_file (names : list string) :
  first_matching_line format (PyStr.split stdout PyStr.LF) = None ->
  os_listdir w output_path = Ok names ->
  audio_files_of format names = [] ->
  download_audio_from_youtube w url output_path format quality
  = ((download_prefix url output_path format quality
      ++ [Print ("Error downloading audio: "
                 ++ "Could not find downloaded audio file with format " ++ format)])%list,
     Ok None).
Proof.
  intros Hnone Hls He.
  rewrite (download_not_located
             (PyException ("Could not find downloaded audio file with format "
                           ++ format))); [reflexivity|].
  rewrite (locate_without_destination _ _ _ _ Hnone).
  now rewrite (scan_directory_empty _ _ _ _ Hls He).
Qed.

End AfterTheDownloader.

(** A download makes no request to the service and writes no file. *)
Lemma download_trace_quiet (w : World) (url output_path format quality : string)
  (ev : event) :
  In ev (fst (download_audio_from_youtube w url output_path format quality)) ->
  is_transcribe_event ev = false /\ is_write_event ev = false.
Proof.
  pose proof (locate_audio_file_trace w output_path format) as Ht.
  unfold download_audio_from_youtube, download_body, bind, call, print,
    try_except.
  destruct (os_makedirs w output_path) as [[]|e1].
  - destruct (subprocess_run w _) as [stdout|e2].
    + specialize (Ht stdout).
      destruct (locate_audio_file w output_path format stdout) as [t [f|e3]];
        simpl in Ht; subst t.
      * simpl. intros Hin.
        each_event Hin ltac:(split; reflexivity).
      * destruct e3; simpl; intros Hin;
          each_event Hin ltac:(split; reflexivity).
    + destruct e2; simpl; intros Hin;
        each_event Hin ltac:(split; reflexivity).
  - destruct e1; simpl; intros Hin;
      each_event Hin ltac:(split; reflexivity).
Qed.

(** The scenario of the specification: one destination line. *)
Example download_test_clip :
  download_audio_from_youtube
    (example_world (Ok ("[youtube] Extracting URL" ++ PyStr.LF
                        ++ "[ExtractAudio] Destination: ./Test Clip.wav" ++ PyStr.LF))
                   "./" [("Test Clip.wav", 7%Z)] None (Raise (PyException "unused")))
    "https://youtu.be/x" "./" "wav" "0"
  = ([ MakeDirs "./";
       Print "Downloading audio from: https://youtu.be/x";
       RunProcess ["yt-dlp"; "-x"; "--audio-format"; "wav";
                   "--audio-quality"; "0"; "-o"; "./%(title)s.%(ext)s";
                   "--no-playlist"; "https://youtu.be/x"];
       Print "Audio downloaded successfully to: ./Test Clip.wav" ],
     Ok (Some "./Test Clip.wav")).
Proof. reflexivity. Qed.

(** The same scenario without the destination line. *)
Example download_test_clip_fallback :
  snd (download_audio_from_youtube
         (example_world (Ok ("[youtube] Extracting URL" ++ PyStr.LF))
                        "./" [("Test Clip.wav", 7%Z)] None
                        (Raise (PyException "unused")))
         "https://youtu.be/x" "./" "wav" "0")
  = Ok (Some "./Test Clip.wav").
Proof. reflexivity. Qed.

(** Two destination lines: the first one is returned. *)
Example download_two_destinations :
  snd (download_audio_from_youtube
         (example_world (Ok ("[download] Destination: a.wav" ++ PyStr.LF
                             ++ "[ExtractAudio] Destination: b.wav"))
                        "./" [] None (Raise (PyException "unused")))
         "https://youtu.be/x" "./" "wav" "0")
  = Ok (Some "a.wav").
Proof. reflexivity. Qed.

Example fallback_newest_example :
  snd (download_audio_from_youtube
         (example_world (Ok "[download] 100% of 3.1MiB") "out"
            [("old.wav", 100%Z); ("new.wav", 200%Z); ("other.mp3", 300%Z)]
            None (Raise (PyException "unused")))
         "https://youtu.be/x" "out" "wav" "0")
  = Ok (Some "out/new.wav").
Proof. reflexivity. Qed.

(* ================================================================== *)
(** * The transcriber *)

Example transcript_path_song :
  transcript_path "/tmp/song.wav" = "/tmp/song_transcript.json".
Proof. reflexivity. Qed.

Example transcript_path_no_extension :
  transcript_path "/tmp.d/song" = "/tmp.d/song_transcript.json".
Proof. reflexivity. Qed.

Example transcript_path_hidden :
  transcript_path "/tmp/.song" = "/tmp/.song_transcript.json".
Proof. reflexivity. Qed.

(** The request fails: the error is reported and nothing else happens. *)
Lemma transcribe_request_fails (w : World) (audio_file_path api_key : string)
  (e : exn) :
  DeepgramClient w api_key = Ok tt ->
  py_open w audio_file_path "rb" = Ok tt ->
  transcribe_file w api_key audio_file_path options = Raise e ->
  transcribe_audio w audio_file_path api_key
  = ([ OpenFile audio_file_path "rb";
       TranscribeFile api_key audio_file_path options;
       CloseFile audio_file_path;
       Print ("Error during transcription: " ++ str_exn e) ],
     Ok tt).
Proof.
  intros Hc Ho Ht.
  unfold transcribe_audio, transcribe_body, with_open, finally, bind, call, ask.
  now rewrite Hc, Ho, Ht.
Qed.

(** The client cannot be made: the error is reported before any call. *)
Lemma transcribe_client_fails (w : World) (audio_file_path api_key : string)
  (e : exn) :
  DeepgramClient w api_key = Raise e ->
  transcribe_audio w audio_file_path api_key
  = ([Print ("Error during transcription: " ++ str_exn e)], Ok tt).
Proof.
  intros Hc. unfold transcribe_audio, transcribe_body, bind, ask.
  now rewrite Hc.
Qed.

(** A run in which nothing fails. *)
Lemma transcribe_succeeds (w : World) (audio_file_path api_key : string)
  (response : Response) :
  DeepgramClient w api_key = Ok tt ->
  py_open w audio_file_path "rb" = Ok tt ->
  transcribe_file w api_key audio_file_path options = Ok response ->
  py_open w (transcript_path audio_file_path) "w" = Ok tt ->
  file_write w (transcript_path audio_file_path) (to_json response) = Ok tt ->
  transcribe_audio w audio_file_path api_key
  = ([ OpenFile audio_file_path "rb";
       TranscribeFile api_key audio_file_path options;
       Print (PyStr.LF ++ "Transcription Results:");
       Print (to_json response);
       OpenFile (transcript_path audio_file_path) "w";
       WriteFile (transcript_path audio_file_path) (to_json response);
       CloseFile (transcript_path audio_file_path);
       Print ("Transcript saved to: " ++ transcript_path audio_file_path);
       CloseFile audio_file_path ],
     Ok tt).
Proof.
  intros Hc Ho Ht Hw Hf.
  unfold transcribe_audio, transcribe_body, with_open, finally, bind, call,
    ask, print.
  now rewrite Hc, Ho, Ht, Hw, Hf.
Qed.

(** The only file the transcriber opens for writing or writes to is the one
    at the transcript path. *)
Lemma transcribe_writes_at_transcript_path
  (w : World) (audio_file_path api_key : string) (ev : event) :
  In ev (fst (transcribe_audio w audio_file_path api_key)) ->
  is_write_event ev = true ->
  ev = OpenFile (transcript_path audio_file_path) "w"
  \/ exists data, ev = WriteFile (transcript_path audio_file_path) data.
Proof.
  unfold transcribe_audio, transcribe_body, with_open, finally, bind, call,
    ask, print, try_except, transcribe_handler.
  destruct (DeepgramClient w api_key) as [[]|e1];
    [destruct (py_open w audio_file_path "rb") as [[]|e2];
     [destruct (transcribe_file w api_key audio_file_path options) as [resp|e3];
      [destruct (py_open w (transcript_path audio_file_path) "w") as [[]|e4];
       [destruct (file_write w (transcript_path audio_file_path) (to_json resp))
          as [[]|e5]|]|]|]|];
    cbn [fst app]; intros Hin Hw;
    repeat (destruct Hin as [<-|Hin];
            [first [discriminate Hw | now left | right; eexists; reflexivity]|]);
    destruct Hin.
Qed.

Lemma transcribe_catches (w : World) (audio_file_path api_key : string)
  (t : list event) (e : exn) :
  transcribe_body w audio_file_path api_key = (t, Raise e) ->
  transcribe_audio w audio_file_path api_key
  = ((t ++ [Print ("Error during transcription: " ++ str_exn e)])%list, Ok tt).
Proof.
  intros Hb. unfold transcribe_audio, try_except. now rewrite Hb.
Qed.

Lemma transcribe_returns (w : World) (audio_file_path api_key : string) :
  exists t, transcribe_audio w audio_file_path api_key = (t, Ok tt).
Proof.
  destruct (transcribe_body w audio_file_path api_key) as [t [[]|e]] eqn:Hb.
  - exists t. unfold transcribe_audio, try_except. now rewrite Hb.
  - eexists. exact (transcribe_catches _ _ _ _ _ Hb).
Qed.

(* ================================================================== *)
(** * The command line *)

Lemma main_after_download (w : World) (args : Args) (t : list event)
  (audio_file : option string) :
  download_audio_from_youtube w (url args) (output args) (format args)
                              (quality args) = (t, Ok audio_file) ->
  main w args
  = ((t ++ fst (transcribe_if_requested w args audio_file))%list,
     snd (transcribe_if_requested w args audio_file)).
Proof.
  intros Hd. unfold main, bind. rewrite Hd.
  now destruct (transcribe_if_requested w args audio_file).
Qed.

(** With [-t] and a path, the key is printed first. *)
Lemma transcribe_if_requested_prints_key (w : World) (args : Args)
  (audio_file : option string) :
  transcribe args = true ->
  truthy audio_file = true ->
  exists rest,
    fst (transcribe_if_requested w args audio_file)
    = Print (str_opt (os_getenv w "DEEPGRAM_API_KEY")) :: rest.
Proof.
  intros Ht Ha. unfold transcribe_if_requested. rewrite Ht, Ha. cbn [andb].
  unfold bind at 1, print at 1, call.
  destruct (if negb _ then _ else _) as [t r]. now exists t.
Qed.

Lemma transcribe_if_requested_no_key (w : World) (args : Args)
  (audio_file : option string) :
  transcribe args = true ->
  truthy audio_file = true ->
  truthy (os_getenv w "DEEPGRAM_API_KEY") = false ->
  transcribe_if_requested w args audio_file
  = ([ Print (str_opt (os_getenv w "DEEPGRAM_API_KEY"));
       Print "Error: DEEPGRAM_API_KEY environment variable is required for transcription.";
       Print "Please set it using: export DEEPGRAM_API_KEY='your-api-key'" ],
     Ok tt).
Proof.
  intros Ht Ha Hk. unfold transcribe_if_requested. now rewrite Ht, Ha, Hk.
Qed.

Lemma main_returns (w : World) (args : Args) :
  exists t, main w args = (t, Ok tt).
Proof.
  unfold main, bind.
  destruct (download_returns w (url args) (output args) (format args)
              (quality args)) as (t & r & ->).
  unfold transcribe_if_requested.
  destruct (transcribe args && truthy r); [|eexists; reflexivity].
  unfold bind, print, call.
  destruct (negb (truthy (os_getenv w "DEEPGRAM_API_KEY")));
    [eexists; reflexivity|].
  destruct r as [path|]; [|eexists; reflexivity].
  destruct (os_getenv w "DEEPGRAM_API_KEY") as [key|]; [|eexists; reflexivity].
  destruct (transcribe_returns w path key) as [t' ->].
  eexists; reflexivity.
Qed.

(** The whole pipeline on a run in which nothing fails. *)
Example main_transcribes :
  main (example_world (Ok "[ExtractAudio] Destination: out/clip.wav") "out"
                      [("clip.wav", 7%Z)] (Some "dg-secret")
                      (Ok {| to_json := "{}" |}))
       {| url := "https://youtu.be/x"; output := "out"; transcribe := true;
          format := "wav"; quality := "0" |}
  = ([ MakeDirs "out";
       Print "Downloading audio from: https://youtu.be/x";
       RunProcess ["yt-dlp"; "-x"; "--audio-format"; "wav";
                   "--audio-quality"; "0"; "-o"; "out/%(title)s.%(ext)s";
                   "--no-playlist"; "https://youtu.be/x"];
       Print "Audio downloaded successfully to: out/clip.wav";
       Print "dg-secret";
       OpenFile "out/clip.wav" "rb";
       TranscribeFile "dg-secret" "out/clip.wav" options;
       Print (PyStr.LF ++ "Transcription Results:");
       Print "{}";
       OpenFile "out/clip_transcript.json" "w";
       WriteFile "out/clip_transcript.json" "{}";
       CloseFile "out/clip_transcript.json";
       Print "Transcript saved to: out/clip_transcript.json";
       CloseFile "out/clip.wav" ],
     Ok tt).
Proof. reflexivity. Qed.

(** A destination line that names no path: the download returns the empty
    string, which [main] does not take for a path. *)
Example main_empty_path :
  main (example_world (Ok "[ExtractAudio] Destination: ") "out"
                      [("clip.wav", 7%Z)] (Some "dg-secret")
                      (Ok {| to_json := "{}" |}))
       {| url := "https://youtu.be/x"; output := "out"; transcribe := true;
          format := "wav"; quality := "0" |}
  = ([ MakeDirs "out";
       Print "Downloading audio from: https://youtu.be/x";
       RunProcess ["yt-dlp"; "-x"; "--audio-format"; "wav";
                   "--audio-quality"; "0"; "-o"; "out/%(title)s.%(ext)s";
                   "--no-playlist"; "https://youtu.be/x"];
       Print "Audio downloaded successfully to: " ],
     Ok tt).
Proof. reflexivity. Qed.

(* ================================================================== *)
(** * What [splitext] cuts off *)

Lemma rfind_from_none (c : ascii) (s : string) : forall i last : Z,
  PyStr.contains (String c "") s = false ->
  PosixPath.rfind_from c i last s = last.
Proof.
  induction s as [|d s IH]; intros i last H; [reflexivity|].
  rewrite contains_char_cons in H. apply orb_false_iff in H as [Hd Hs].
  cbn [PosixPath.rfind_from]. rewrite Ascii.eqb_sym, Hd. now apply IH.
Qed.

(** The index of an occurrence that no other follows. *)
Lemma rfind_from_last (c : ascii) (pre post : string) : forall i last : Z,
  PyStr.contains (String c "") post = false ->
  PosixPath.rfind_from c i last (pre ++ String c post)
  = (i + Z.of_nat (String.length pre))%Z.
Proof.
  induction pre as [|d pre IH]; intros i last H.
  - change ("" ++ String c post) with (String c post).
    cbn [PosixPath.rfind_from]. rewrite Ascii.eqb_refl.
    rewrite (rfind_from_none c post _ _ H). simpl. lia.
  - change (String d pre ++ String c post) with (String d (pre ++ String c post)).
    cbn [PosixPath.rfind_from]. rewrite (IH _ _ H). cbn [String.length]. lia.
Qed.

Lemma name_before_dot_step (n i : nat) (p : string) :
  PosixPath.name_before_dot (S n) i p
  = match String.get i p with
    | Some d => if Ascii.eqb d "." then PosixPath.name_before_dot n (S i) p else true
    | None => true
    end.
Proof.
  cbn [PosixPath.name_before_dot]. destruct (String.get i p) as [d|]; [|reflexivity].
  destruct d as [[] [] [] [] [] [] [] []]; reflexivity.
Qed.

Lemma get_after (a s : string) (k : nat) :
  String.get (String.length a + k) (a ++ s) = String.get k s.
Proof. induction a as [|c a IH]; simpl; [reflexivity | exact IH]. Qed.

Lemma name_before_dot_after (a s : string) (n : nat) : forall i,
  PosixPath.name_before_dot n (String.length a + i) (a ++ s)
  = PosixPath.name_before_dot n i s.
Proof.
  induction n as [|n IH]; intros i; [reflexivity|].
  rewrite !name_before_dot_step, get_after.
  replace (S (String.length a + i)) with (String.length a + S i) by lia.
  now rewrite IH.
Qed.

(** The loop finds a character of the name unless all it reads are dots. *)
Lemma name_before_dot_stem (stem rest : string) :
  PosixPath.name_before_dot (String.length stem) 0 (stem ++ rest)
  = negb (only_dots stem).
Proof.
  induction stem as [|c stem IH]; [reflexivity|].
  cbn [String.length]. rewrite name_before_dot_step.
  change (String c stem ++ rest) with (String c (stem ++ rest)).
  cbn [String.get only_dots].
  destruct (Ascii.eqb c "."); [|reflexivity].
  change (String c (stem ++ rest)) with (String c "" ++ (stem ++ rest)).
  change 1 with (String.length (String c "") + 0).
  now rewrite name_before_dot_after, IH.
Qed.

Lemma length_append (a b : string) :
  String.length (a ++ b) = String.length a + String.length b.
Proof. induction a as [|c a IH]; simpl; [reflexivity | now rewrite IH]. Qed.

(** The index after the last separator of a path that ends a directory and
    goes on without a separator. *)
Lemma rfind_sep_directory (dir name : string) :
  ends_directory dir ->
  PyStr.contains "/" name = false ->
  (PosixPath.rfind (dir ++ name) "/" + 1)%Z = Z.of_nat (String.length dir).
Proof.
  intros [-> | [d ->]] Hname; unfold PosixPath.rfind.
  - change ("" ++ name) with name. now rewrite (rfind_from_none _ _ _ _ Hname).
  - rewrite append_assoc. change ("/" ++ name) with (String "/" name).
    rewrite (rfind_from_last _ _ _ _ _ Hname), length_append. simpl. lia.
Qed.

(** The exact cut of a path whose last component holds a dot: at the last
    dot, unless only dots come before it in that component. *)
Lemma splitext_last_component (dir stem e : string) :
  ends_directory dir ->
  PyStr.contains "/" stem = false ->
  PyStr.contains "." e = false ->
  PyStr.contains "/" e = false ->
  PosixPath.splitext (dir ++ stem ++ String "." e)
  = if only_dots stem
    then (dir ++ stem ++ String "." e, "")
    else (dir ++ stem, String "." e).
Proof.
  intros Hdir Hstem He Hes.
  assert (Hname : PyStr.contains "/" (stem ++ String "." e) = false).
  { rewrite contains_char_append, Hstem, contains_char_cons, Hes. reflexivity. }
  pose proof (rfind_sep_directory dir _ Hdir Hname) as Hsep.
  assert (Hdot : PosixPath.rfind (dir ++ stem ++ String "." e) "."
                 = Z.of_nat (String.length (dir ++ stem))).
  { unfold PosixPath.rfind. rewrite <- append_assoc.
    rewrite (rfind_from_last _ _ _ _ _ He). lia. }
  unfold PosixPath.splitext. rewrite Hdot.
  set (sep := PosixPath.rfind (dir ++ stem ++ String "." e) "/") in *.
  rewrite length_append in *.
  replace (sep <? _)%Z with true by (symmetry; apply Z.ltb_lt; lia).
  replace (Z.to_nat (Z.of_nat (String.length dir + String.length stem) - (sep + 1)))
    with (String.length stem) by lia.
  replace (Z.to_nat (sep + 1)) with (String.length dir + 0) by lia.
  rewrite name_before_dot_after, name_before_dot_stem.
  destruct (only_dots stem); cbn [negb]; [reflexivity|].
  rewrite Nat2Z.id, <- length_append, <- append_assoc.
  now rewrite substring_prefix, substring_suffix.
Qed.

(** A path whose last component holds no dot is not cut. *)
Lemma splitext_no_dot_in_name (dir name : string) :
  ends_directory dir ->
  PyStr.contains "/" name = false ->
  PyStr.contains "." name = false ->
  PosixPath.splitext (dir ++ name) = (dir ++ name, "").
Proof.
  intros Hdir Hsep Hdot.
  pose proof (rfind_sep_directory dir name Hdir Hsep) as Hs.
  unfold PosixPath.splitext.
  set (sep := PosixPath.rfind (dir ++ name) "/") in *.
  assert (Hle : (PosixPath.rfind (dir ++ name) "." <= sep)%Z).
  { unfold PosixPath.rfind.
    destruct (rfind_from_spec "." dir 0 (-1))
      as [[Hno _] | (pre & post & Hd & Hno & _)].
    - rewrite rfind_from_none; [lia|].
      now rewrite contains_char_append, Hno, Hdot.
    - rewrite Hd, append_assoc.
      change (String "." post ++ name) with (String "." (post ++ name)).
      rewrite rfind_from_last
        by now rewrite contains_char_append, Hno, Hdot.
      rewrite Hd, length_append in Hs. cbn [String.length] in Hs. lia. }
  replace (sep <? _)%Z with false by (symmetry; apply Z.ltb_ge; lia).
  reflexivity.
Qed.

(** Every path is a directory part followed by a last component, which
    holds no dot or is cut at its last dot. *)
Lemma path_shape (p : string) :
  exists dir name,
    p = dir ++ name
    /\ ends_directory dir
    /\ PyStr.contains "/" name = false
    /\ (PyStr.contains "." name = false
        \/ exists stem e,
             name = stem ++ String "." e
             /\ PyStr.contains "/" stem = false
             /\ PyStr.contains "." e = false
             /\ PyStr.contains "/" e = false).
Proof.
  assert (Hlast : exists dir name,
             p = dir ++ name /\ ends_directory dir
             /\ PyStr.contains "/" name = false).
  { destruct (rfind_from_spec "/" p 0 (-1))
      as [[Hno _] | (pre & post & Hp & Hno & _)].
    - exists "", p. repeat split; trivial. now left.
    - exists (pre ++ "/"), post. repeat split; trivial.
      + now rewrite append_assoc.
      + right. now exists pre. }
  destruct Hlast as (dir & name & Hp & Hdir & Hname).
  exists dir, name. repeat split; trivial.
  destruct (rfind_from_spec "." name 0 (-1))
    as [[Hno _] | (stem & e & Hn & Hno & _)]; [now left|].
  right. exists stem, e. rewrite Hn in Hname.
  rewrite contains_char_append, contains_char_cons in Hname.
  apply orb_false_iff in Hname as [Hstem Hrest].
  apply orb_false_iff in Hrest as [_ He]. now repeat split.
Qed.

(* ================================================================== *)
(** * The claims *)

(** C1. The claim fails on the code at a destination line whose marker is
    not followed by a space: the line
    [[ExtractAudio] Destination:/tmp/clip.wav] is the first destination line
    of the output, yet the download does not return the path the line
    names; it reports an index error and returns [None], and does not look
    into the output directory, where the file is. *)
Theorem destination_without_space_not_returned :
  first_matching_line "wav"
    (PyStr.split "[ExtractAudio] Destination:/tmp/clip.wav" PyStr.LF)
  = Some "[ExtractAudio] Destination:/tmp/clip.wav"
  /\ download_audio_from_youtube
       (example_world (Ok "[ExtractAudio] Destination:/tmp/clip.wav")
                      "/tmp" [("clip.wav", 7%Z)] None
                      (Raise (PyException "unused")))
       "https://youtu.be/x" "/tmp" "wav" "0"
     = ([ MakeDirs "/tmp";
          Print "Downloading audio from: https://youtu.be/x";
          RunProcess ["yt-dlp"; "-x"; "--audio-format"; "wav";
                      "--audio-quality"; "0"; "-o"; "/tmp/%(title)s.%(ext)s";
                      "--no-playlist"; "https://youtu.be/x"];
          Print "Error downloading audio: list index out of range" ],
        Ok None).
Proof. split; reflexivity. Qed.





(** C3. With no destination line in the downloader's output and no file of
    the requested format in the output directory, the download returns
    [None] after reporting that the file was not found, and [main] stops
    there: it makes no call to the transcription service, whatever the
    [-t] flag says. *)
Theorem no_file_no_transcription
  (w : World) (args : Args) (stdout : string) (names : list string) :
  os_makedirs w (output args) = Ok tt ->
  subprocess_run w (yt_dlp_command (url args) (output args) (format args)
                                   (quality args)) = Ok stdout ->
  first_matching_line (format args) (PyStr.split stdout PyStr.LF) = None ->
  os_listdir w (output args) = Ok names ->
  audio_files_of (format args) names = [] ->
  snd (download_audio_from_youtube w (url args) (output args) (format args)
                                   (quality args)) = Ok None
  /\ main w args
     = ((download_prefix (url args) (output args) (format args) (quality args)
         ++ [Print ("Error downloading audio: "
                    ++ "Could not find downloaded audio file with format "
                    ++ format args)])%list,
        Ok tt)
  /\ forall ev, In ev (fst (main w args)) ->
       is_transcribe_event ev = false /\ is_write_event ev = false.
Proof.
  intros Hmk Hrun Hnone Hls He.
  pose proof (download_no_file w _ _ _ _ stdout Hmk Hrun names Hnone Hls He) as Hd.
  assert (Hmain : main w args
     = ((download_prefix (url args) (output args) (format args) (quality args)
         ++ [Print ("Error downloading audio: "
                    ++ "Could not find downloaded audio file with format "
                    ++ format args)])%list,
        Ok tt)).
  { unfold main, bind. rewrite Hd.
    unfold transcribe_if_requested. cbn [truthy]. rewrite andb_false_r.
    cbn [ret]. now rewrite app_nil_r. }
  split; [now rewrite Hd|]. split; [exact Hmain|].
  rewrite Hmain. cbn [fst download_prefix app].
  intros ev Hin. each_event Hin ltac:(split; reflexivity).
Qed.

Lemma no_file_no_transcription_witness :
  snd (download_audio_from_youtube
         (example_world (Ok "[download] 100% of 3.1MiB") "out"
            [("notes.txt", 5%Z)] (Some "secret")
            (Ok {| to_json := "{}" |}))
         "https://youtu.be/x" "out" "wav" "0") = Ok None
  /\ forall ev,
       In ev (fst (main (example_world (Ok "[download] 100% of 3.1MiB") "out"
                          [("notes.txt", 5%Z)] (Some "secret")
                          (Ok {| to_json := "{}" |}))
                        {| url := "https://youtu.be/x"; output := "out";
                           transcribe := true; format := "wav";
                           quality := "0" |})) ->
       is_transcribe_event ev = false /\ is_write_event ev = false.
Proof.
  destruct (no_file_no_transcription
              (example_world (Ok "[download] 100% of 3.1MiB") "out"
                 [("notes.txt", 5%Z)] (Some "secret")
                 (Ok {| to_json := "{}" |}))
              {| url := "https://youtu.be/x"; output := "out";
                 transcribe := true; format := "wav"; quality := "0" |}
              "[download] 100% of 3.1MiB" ["notes.txt"]
              eq_refl eq_refl eq_refl eq_refl eq_refl) as (H1 & _ & H3).
  split; [exact H1 | exact H3].
Defined.

(** C4. The transcript path is a function of the audio path alone, and it
    is the audio path with its extension replaced by [_transcript.json].
    Every path is a directory part, empty or ending with a separator,
    followed by a last component.  When that component holds no dot there
    is no extension, and the suffix is added to the path.  When it holds
    one, the extension is what starts at its last dot, and the suffix takes
    its place, unless only dots come before that dot (as in [.bashrc]), in
    which case there is no extension either.  So [/tmp/song.wav] gives
    [/tmp/song_transcript.json].  Whatever the world does, the transcriber
    opens for writing and writes no file but the one at that path, and a
    run in which nothing fails writes the response there. *)
Theorem transcript_path_replaces_extension :
  (forall p,
     exists dir name,
       p = dir ++ name
       /\ ends_directory dir
       /\ PyStr.contains "/" name = false
       /\ (PyStr.contains "." name = false
           \/ exists stem e,
                name = stem ++ String "." e
                /\ PyStr.contains "/" stem = false
                /\ PyStr.contains "." e = false
                /\ PyStr.contains "/" e = false))
  /\ (forall dir name,
        ends_directory dir ->
        PyStr.contains "/" name = false ->
        PyStr.contains "." name = false ->
        transcript_path (dir ++ name) = dir ++ name ++ "_transcript.json")
  /\ (forall dir stem e,
        ends_directory dir ->
        PyStr.contains "/" stem = false ->
        PyStr.contains "." e = false ->
        PyStr.contains "/" e = false ->
        transcript_path (dir ++ stem ++ String "." e)
        = if only_dots stem
          then dir ++ stem ++ String "." e ++ "_transcript.json"
          else dir ++ stem ++ "_transcript.json")
  /\ (forall p,
        exists root ext,
          PosixPath.splitext p = (root, ext)
          /\ p = root ++ ext
          /\ (ext = ""
              \/ exists e, ext = String "." e
                           /\ PyStr.contains "." e = false
                           /\ PyStr.contains "/" e = false)
          /\ transcript_path p = root ++ "_transcript.json")
  /\ transcript_path "/tmp/song.wav" = "/tmp/song_transcript.json"
  /\ (forall w audio_file_path api_key ev,
        In ev (fst (transcribe_audio w audio_file_path api_key)) ->
        is_write_event ev = true ->
        ev = OpenFile (transcript_path audio_file_path) "w"
        \/ exists data, ev = WriteFile (transcript_path audio_file_path) data)
  /\ (forall w audio_file_path api_key response,
        DeepgramClient w api_key = Ok tt ->
        py_open w audio_file_path "rb" = Ok tt ->
        transcribe_file w api_key audio_file_path options = Ok response ->
        py_open w (transcript_path audio_file_path) "w" = Ok tt ->
        file_write w (transcript_path audio_file_path) (to_json response) = Ok tt ->
        In (WriteFile (transcript_path audio_file_path) (to_json response))
           (fst (transcribe_audio w audio_file_path api_key))).
Proof.
  split; [exact path_shape|].
  split.
  { intros dir name Hdir Hsep Hdot. unfold transcript_path.
    rewrite (splitext_no_dot_in_name dir name Hdir Hsep Hdot). cbn [fst].
    apply append_assoc. }
  split.
  { intros dir stem e Hdir Hstem He Hes. unfold transcript_path.
    rewrite (splitext_last_component dir stem e Hdir Hstem He Hes).
    destruct (only_dots stem); cbn [fst].
    - rewrite !append_assoc. reflexivity.
    - apply append_assoc. }
  split.
  { intros p. destruct (splitext_spec p) as [Happ Hext].
    unfold transcript_path.
    destruct (PosixPath.splitext p) as [root ext]. cbn [fst snd] in *.
    exists root, ext. now repeat split. }
  split; [reflexivity|].
  split; [exact transcribe_writes_at_transcript_path|].
  intros w audio_file_path api_key response Hc Ho Ht Hw Hf.
  rewrite (transcribe_succeeds _ _ _ _ Hc Ho Ht Hw Hf). cbn [fst].
  do 5 right. now left.
Qed.

(** A recording with an extension, one without, one whose name starts with
    a dot, and a run on [/tmp/song.wav] in which nothing fails. *)
Lemma transcript_path_replaces_extension_witness :
  transcript_path "/tmp/song.wav" = "/tmp/song_transcript.json"
  /\ transcript_path "/tmp/song.tar.gz" = "/tmp/song.tar_transcript.json"
  /\ transcript_path "/tmp.d/song" = "/tmp.d/song_transcript.json"
  /\ transcript_path "/tmp/.song" = "/tmp/.song_transcript.json"
  /\ In (WriteFile "/tmp/song_transcript.json" "{}")
        (fst (transcribe_audio
                (example_world (Ok "") "/tmp" [] (Some "key")
                               (Ok {| to_json := "{}" |}))
                "/tmp/song.wav" "key"))
  /\ (OpenFile "/tmp/song_transcript.json" "w"
      = OpenFile (transcript_path "/tmp/song.wav") "w"
      \/ exists data,
           OpenFile "/tmp/song_transcript.json" "w"
           = WriteFile (transcript_path "/tmp/song.wav") data).
Proof.
  destruct transcript_path_replaces_extension
    as (_ & Hnone & Hcut & _ & _ & Honly & Hwrite).
  assert (Htmp : ends_directory "/tmp/") by (right; now exists "/tmp").
  assert (Htmpd : ends_directory "/tmp.d/") by (right; now exists "/tmp.d").
  split; [exact (Hcut "/tmp/" "song" "wav" Htmp eq_refl eq_refl eq_refl)|].
  split; [exact (Hcut "/tmp/" "song.tar" "gz" Htmp eq_refl eq_refl eq_refl)|].
  split; [exact (Hnone "/tmp.d/" "song" Htmpd eq_refl eq_refl)|].
  split; [exact (Hcut "/tmp/" "" "song" Htmp eq_refl eq_refl eq_refl)|].
  split.
  - exact (Hwrite (example_world (Ok "") "/tmp" [] (Some "key")
                                 (Ok {| to_json := "{}" |}))
                  "/tmp/song.wav" "key" {| to_json := "{}" |}
                  eq_refl eq_refl eq_refl eq_refl eq_refl).
  - apply (Honly (example_world (Ok "") "/tmp" [] (Some "key")
                                (Ok {| to_json := "{}" |}))
                 "/tmp/song.wav" "key").
    + vm_compute. do 4 right. now left.
    + reflexivity.
Defined.

(** C5. With [-t], a download that returned a path (one that is not empty,
    which is what [main] tests) and a credential that is unset or empty,
    [main] prints the value it read and the two lines that tell how to set
    the variable, and returns: after the download it only prints, so it
    makes no request to the service and writes no file, and what the
    download did stands as it was. *)
Theorem missing_credential_skips_transcription
  (w : World) (args : Args) (t : list event) (audio_file : option string) :
  transcribe args = true ->
  download_audio_from_youtube w (url args) (output args) (format args)
                              (quality args) = (t, Ok audio_file) ->
  truthy audio_file = true ->
  os_getenv w "DEEPGRAM_API_KEY" = None
  \/ os_getenv w "DEEPGRAM_API_KEY" = Some "" ->
  main w args
  = ((t ++ [ Print (str_opt (os_getenv w "DEEPGRAM_API_KEY"));
             Print "Error: DEEPGRAM_API_KEY environment variable is required for transcription.";
             Print "Please set it using: export DEEPGRAM_API_KEY='your-api-key'" ])%list,
     Ok tt)
  /\ forall ev, In ev (fst (main w args)) ->
       is_transcribe_event ev = false /\ is_write_event ev = false.
Proof.
  intros Ht Hd Ha Hkey.
  assert (Hk : truthy (os_getenv w "DEEPGRAM_API_KEY") = false)
    by (destruct Hkey as [-> | ->]; reflexivity).
  assert (Hmain := main_after_download w args t audio_file Hd).
  rewrite (transcribe_if_requested_no_key w args audio_file Ht Ha Hk) in Hmain.
  cbn [fst snd] in Hmain. split; [exact Hmain|].
  rewrite Hmain. cbn [fst]. intros ev Hin.
  apply in_app_or in Hin as [Hin|Hin].
  - apply (download_trace_quiet w (url args) (output args) (format args)
             (quality args)). now rewrite Hd.
  - each_event Hin ltac:(split; reflexivity).
Qed.

(** The variable is not set. *)
Lemma missing_credential_skips_transcription_witness :
  main (example_world (Ok "[ExtractAudio] Destination: out/clip.wav") "out"
                      [("clip.wav", 7%Z)] None (Ok {| to_json := "{}" |}))
       {| url := "https://youtu.be/x"; output := "out"; transcribe := true;
          format := "wav"; quality := "0" |}
  = ([ MakeDirs "out";
       Print "Downloading audio from: https://youtu.be/x";
       RunProcess ["yt-dlp"; "-x"; "--audio-format"; "wav";
                   "--audio-quality"; "0"; "-o"; "out/%(title)s.%(ext)s";
                   "--no-playlist"; "https://youtu.be/x"];
       Print "Audio downloaded successfully to: out/clip.wav";
       Print "None";
       Print "Error: DEEPGRAM_API_KEY environment variable is required for transcription.";
       Print "Please set it using: export DEEPGRAM_API_KEY='your-api-key'" ],
     Ok tt).
Proof.
  exact (proj1 (missing_credential_skips_transcription
                  (example_world (Ok "[ExtractAudio] Destination: out/clip.wav")
                                 "out" [("clip.wav", 7%Z)] None
                                 (Ok {| to_json := "{}" |}))
                  {| url := "https://youtu.be/x"; output := "out";
                     transcribe := true; format := "wav"; quality := "0" |}
                  _ (Some "out/clip.wav") eq_refl eq_refl eq_refl
                  (or_introl eq_refl))).
Defined.

(** C6. When the request to the transcription service fails, or the client
    for it cannot be made, the transcriber reports the error and returns;
    it opens no file for writing and writes none, so no transcript, whole
    or partial, appears; and it has sent at most one request. *)
Theorem failed_transcription_writes_nothing :
  (forall w audio_file_path api_key e,
     DeepgramClient w api_key = Ok tt ->
     py_open w audio_file_path "rb" = Ok tt ->
     transcribe_file w api_key audio_file_path options = Raise e ->
     transcribe_audio w audio_file_path api_key
     = ([ OpenFile audio_file_path "rb";
          TranscribeFile api_key audio_file_path options;
          CloseFile audio_file_path;
          Print ("Error during transcription: " ++ str_exn e) ],
        Ok tt)
     /\ (forall ev, In ev (fst (transcribe_audio w audio_file_path api_key)) ->
           is_write_event ev = false)
     /\ List.length (filter is_transcribe_event
                       (fst (transcribe_audio w audio_file_path api_key))) = 1)
  /\ (forall w audio_file_path api_key e,
        DeepgramClient w api_key = Raise e ->
        transcribe_audio w audio_file_path api_key
        = ([Print ("Error during transcription: " ++ str_exn e)], Ok tt)).
Proof.
  split.
  - intros w audio_file_path api_key e Hc Ho Ht.
    rewrite (transcribe_request_fails _ _ _ _ Hc Ho Ht).
    split; [reflexivity|]. split; [|reflexivity].
    cbn [fst]. intros ev Hin.
    each_event Hin ltac:(reflexivity).
  - exact transcribe_client_fails.
Qed.

(** The service refuses the key; the client rejects it. *)
Lemma failed_transcription_writes_nothing_witness :
  transcribe_audio
    (example_world (Ok "") "/tmp" [] (Some "key")
                   (Raise (PyException "401 Unauthorized")))
    "/tmp/song.wav" "key"
  = ([ OpenFile "/tmp/song.wav" "rb";
       TranscribeFile "key" "/tmp/song.wav" options;
       CloseFile "/tmp/song.wav";
       Print "Error during transcription: 401 Unauthorized" ],
     Ok tt)
  /\ transcribe_audio
       (without_client
          (example_world (Ok "") "/tmp" [] (Some "key")
                         (Ok {| to_json := "{}" |}))
          (PyException "Deepgram API key is required"))
       "/tmp/song.wav" "key"
     = ([Print "Error during transcription: Deepgram API key is required"],
        Ok tt).
Proof.
  destruct failed_transcription_writes_nothing as [Hreq Hclient]. split.
  - exact (proj1 (Hreq (example_world (Ok "") "/tmp" [] (Some "key")
                                      (Raise (PyException "401 Unauthorized")))
                       "/tmp/song.wav" "key" (PyException "401 Unauthorized")
                       eq_refl eq_refl eq_refl)).
  - exact (Hclient (without_client
                      (example_world (Ok "") "/tmp" [] (Some "key")
                                     (Ok {| to_json := "{}" |}))
                      (PyException "Deepgram API key is required"))
                   "/tmp/song.wav" "key"
                   (PyException "Deepgram API key is required") eq_refl).
Defined.

(** On a standard output that takes every text, the stages are the ones
    defined with [print]. *)
Lemma download_on_accepting (w : World) (url output_path format quality : string) :
  download_audio_from_youtube_on accepting w url output_path format quality
  = download_audio_from_youtube w url output_path format quality.
Proof. reflexivity. Qed.

Lemma transcribe_on_accepting (w : World) (audio_file_path api_key : string) :
  transcribe_audio_on accepting w audio_file_path api_key
  = transcribe_audio w audio_file_path api_key.
Proof. reflexivity. Qed.

(** A handler whose reports are printed returns [None]. *)
Lemma download_handler_on_accepted (out : Console) (e : exn) :
  (forall text, In text (download_reports e) -> out text = Ok tt) ->
  download_handler_on out e = (map Print (download_reports e), Ok None).
Proof.
  intros Hout. destruct e as [str_e stderr | str_e];
    unfold download_handler_on, bind, print_to, call;
    cbn [download_reports] in Hout.
  - rewrite (Hout _ (or_introl eq_refl)).
    now rewrite (Hout _ (or_intror (or_introl eq_refl))).
  - now rewrite (Hout _ (or_introl eq_refl)).
Qed.

(** A handler whose first report is refused raises what the print
    raised. *)
Lemma download_handler_on_refused (out : Console) (e e' : exn) :
  out (hd "" (download_reports e)) = Raise e' ->
  download_handler_on out e = ([Print (hd "" (download_reports e))], Raise e').
Proof.
  intros Hout. destruct e as [str_e stderr | str_e];
    unfold download_handler_on, bind, print_to, call;
    cbn [download_reports hd] in *; now rewrite Hout.
Qed.

Lemma download_on_catches (out : Console) (w : World)
  (url output_path format quality : string) (t : list event) (e : exn) :
  download_body_on out w url output_path format quality = (t, Raise e) ->
  (forall text, In text (download_reports e) -> out text = Ok tt) ->
  download_audio_from_youtube_on out w url output_path format quality
  = ((t ++ map Print (download_reports e))%list, Ok None).
Proof.
  intros Hb Hout. unfold download_audio_from_youtube_on, try_except.
  now rewrite Hb, (download_handler_on_accepted out e Hout).
Qed.

(** The report of a failure is refused: the exception of the print leaves
    the download. *)
Lemma download_on_report_refused (out : Console) (w : World)
  (url output_path format quality : string) (t : list event) (e e' : exn) :
  download_body_on out w url output_path format quality = (t, Raise e) ->
  out (hd "" (download_reports e)) = Raise e' ->
  download_audio_from_youtube_on out w url output_path format quality
  = ((t ++ [Print (hd "" (download_reports e))])%list, Raise e').
Proof.
  intros Hb Hout. unfold download_audio_from_youtube_on, try_except.
  now rewrite Hb, (download_handler_on_refused out e e' Hout).
Qed.

Lemma download_body_on_run_fails (out : Console) (w : World)
  (url output_path format quality : string) (e : exn) :
  os_makedirs w output_path = Ok tt ->
  out ("Downloading audio from: " ++ url) = Ok tt ->
  subprocess_run w (yt_dlp_command url output_path format quality) = Raise e ->
  download_body_on out w url output_path format quality
  = (download_prefix url output_path format quality, Raise e).
Proof.
  intros Hmk Hout Hrun. unfold download_body_on, bind, call, print_to.
  now rewrite Hmk, Hout, Hrun.
Qed.

Lemma download_body_on_no_file (out : Console) (w : World)
  (url output_path format quality stdout : string) (names : list string) :
  os_makedirs w output_path = Ok tt ->
  out ("Downloading audio from: " ++ url) = Ok tt ->
  subprocess_run w (yt_dlp_command url output_path format quality) = Ok stdout ->
  first_matching_line format (PyStr.split stdout PyStr.LF) = None ->
  os_listdir w output_path = Ok names ->
  audio_files_of format names = [] ->
  download_body_on out w url output_path format quality
  = (download_prefix url output_path format quality,
     Raise (PyException
              ("Could not find downloaded audio file with format " ++ format))).
Proof.
  intros Hmk Hout Hrun Hnone Hls He.
  unfold download_body_on, bind, call, print_to.
  rewrite Hmk, Hout, Hrun.
  rewrite (locate_without_destination _ _ _ _ Hnone).
  now rewrite (scan_directory_empty _ _ _ _ Hls He).
Qed.

Lemma transcribe_on_catches (out : Console) (w : World)
  (audio_file_path api_key : string) (t : list event) (e : exn) :
  transcribe_body_on out w audio_file_path api_key = (t, Raise e) ->
  out (transcribe_report e) = Ok tt ->
  transcribe_audio_on out w audio_file_path api_key
  = ((t ++ [Print (transcribe_report e)])%list, Ok tt).
Proof.
  intros Hb Hout.
  unfold transcribe_audio_on, try_except, transcribe_handler_on, print_to, call.
  rewrite Hb. fold (transcribe_report e). now rewrite Hout.
Qed.

(** The claim C7 as it stands fails when the standard output refuses the
    report of a failure: the downloader exits with status 1, its error
    output holds a character the standard output cannot encode, and the
    print of the second line of the report raises out of the download,
    which returns nothing. *)
Lemma report_of_subprocess_failure_can_raise :
  subprocess_run
    (example_world
       (Raise (CalledProcessError
                 "Command 'yt-dlp' returned non-zero exit status 1."
                 ("ERROR: Vid" ++ String "233" "o unavailable")))
       "out" [] None (Raise (PyException "unused")))
    (yt_dlp_command "https://youtu.be/x" "out" "wav" "0")
  = Raise (CalledProcessError
             "Command 'yt-dlp' returned non-zero exit status 1."
             ("ERROR: Vid" ++ String "233" "o unavailable"))
  /\ download_audio_from_youtube_on
       (refusing "233" (PyException "'ascii' codec can't encode character"))
       (example_world
          (Raise (CalledProcessError
                    "Command 'yt-dlp' returned non-zero exit status 1."
                    ("ERROR: Vid" ++ String "233" "o unavailable")))
          "out" [] None (Raise (PyException "unused")))
       "https://youtu.be/x" "out" "wav" "0"
     = ([ MakeDirs "out";
          Print "Downloading audio from: https://youtu.be/x";
          RunProcess ["yt-dlp"; "-x"; "--audio-format"; "wav";
                      "--audio-quality"; "0"; "-o"; "out/%(title)s.%(ext)s";
                      "--no-playlist"; "https://youtu.be/x"];
          Print "Error running yt-dlp: Command 'yt-dlp' returned non-zero exit status 1.";
          Print ("Error output: ERROR: Vid" ++ String "233" "o unavailable") ],
        Raise (PyException "'ascii' codec can't encode character")).
Proof. split; reflexivity. Qed.

(** C7, amended. As long as the standard output takes the reports of the
    [except] clauses, no failure leaves a stage as an exception: whatever
    the body of the download raises, a failed print of the body included,
    becomes the printed report and [None]; in particular a non-zero exit of
    the downloader is reported with its error output, and a file that
    cannot be found is reported as such; and whatever the body of the
    transcription raises becomes the printed report.  So a stage whose
    reports are all taken always returns. *)
Theorem failures_stop_when_reports_print :
  (forall out w url output_path format quality t e,
     download_body_on out w url output_path format quality = (t, Raise e) ->
     (forall text, In text (download_reports e) -> out text = Ok tt) ->
     download_audio_from_youtube_on out w url output_path format quality
     = ((t ++ map Print (download_reports e))%list, Ok None))
  /\ (forall out w url output_path format quality str_e stderr,
        os_makedirs w output_path = Ok tt ->
        out ("Downloading audio from: " ++ url) = Ok tt ->
        subprocess_run w (yt_dlp_command url output_path format quality)
        = Raise (CalledProcessError str_e stderr) ->
        out ("Error running yt-dlp: " ++ str_e) = Ok tt ->
        out ("Error output: " ++ stderr) = Ok tt ->
        download_audio_from_youtube_on out w url output_path format quality
        = ((download_prefix url output_path format quality
            ++ [Print ("Error running yt-dlp: " ++ str_e);
                Print ("Error output: " ++ stderr)])%list,
           Ok None))
  /\ (forall out w url output_path format quality stdout names,
        os_makedirs w output_path = Ok tt ->
        out ("Downloading audio from: " ++ url) = Ok tt ->
        subprocess_run w (yt_dlp_command url output_path format quality)
        = Ok stdout ->
        first_matching_line format (PyStr.split stdout PyStr.LF) = None ->
        os_listdir w output_path = Ok names ->
        audio_files_of format names = [] ->
        out ("Error downloading audio: "
             ++ "Could not find downloaded audio file with format " ++ format)
        = Ok tt ->
        download_audio_from_youtube_on out w url output_path format quality
        = ((download_prefix url output_path format quality
            ++ [Print ("Error downloading audio: "
                       ++ "Could not find downloaded audio file with format "
                       ++ format)])%list,
           Ok None))
  /\ (forall out w url output_path format quality,
        (forall e text, In text (download_reports e) -> out text = Ok tt) ->
        exists t r,
          download_audio_from_youtube_on out w url output_path format quality
          = (t, Ok r))
  /\ (forall out w audio_file_path api_key t e,
        transcribe_body_on out w audio_file_path api_key = (t, Raise e) ->
        out (transcribe_report e) = Ok tt ->
        transcribe_audio_on out w audio_file_path api_key
        = ((t ++ [Print (transcribe_report e)])%list, Ok tt))
  /\ (forall out w audio_file_path api_key,
        (forall e, out (transcribe_report e) = Ok tt) ->
        exists t, transcribe_audio_on out w audio_file_path api_key = (t, Ok tt)).
Proof.
  split; [exact download_on_catches|].
  split.
  { intros out w url output_path format quality str_e stderr Hmk Hd Hrun H1 H2.
    rewrite (download_on_catches out w _ _ _ _ _ _
               (download_body_on_run_fails out w _ _ _ _ _ Hmk Hd Hrun));
      [reflexivity|].
    intros text [<-|[<-|[]]]; assumption. }
  split.
  { intros out w url output_path format quality stdout names
           Hmk Hd Hrun Hnone Hls He Hrep.
    rewrite (download_on_catches out w _ _ _ _ _ _
               (download_body_on_no_file out w _ _ _ _ stdout names
                  Hmk Hd Hrun Hnone Hls He));
      [reflexivity|].
    intros text [<-|[]]. exact Hrep. }
  split.
  { intros out w url output_path format quality Hout.
    destruct (download_body_on out w url output_path format quality)
      as [t [r|e]] eqn:Hb.
    - exists t, r. unfold download_audio_from_youtube_on, try_except.
      now rewrite Hb.
    - eexists _, None. exact (download_on_catches out w _ _ _ _ t e Hb (Hout e)). }
  split; [exact transcribe_on_catches|].
  intros out w audio_file_path api_key Hout.
  destruct (transcribe_body_on out w audio_file_path api_key)
    as [t [[]|e]] eqn:Hb.
  - exists t. unfold transcribe_audio_on, try_except. now rewrite Hb.
  - eexists. exact (transcribe_on_catches out w _ _ t e Hb (Hout e)).
Qed.

(** The downloader exits with status 1; no file is found; the service
    refuses the key; and a standard output that cannot encode a character
    the downloaded title holds, but takes the report. *)
Lemma failures_stop_when_reports_print_witness :
  download_audio_from_youtube_on accepting
    (example_world
       (Raise (CalledProcessError
                 "Command 'yt-dlp' returned non-zero exit status 1."
                 "ERROR: Video unavailable"))
       "out" [] None (Raise (PyException "unused")))
    "https://youtu.be/x" "out" "wav" "0"
  = ([ MakeDirs "out";
       Print "Downloading audio from: https://youtu.be/x";
       RunProcess ["yt-dlp"; "-x"; "--audio-format"; "wav";
                   "--audio-quality"; "0"; "-o"; "out/%(title)s.%(ext)s";
                   "--no-playlist"; "https://youtu.be/x"];
       Print "Error running yt-dlp: Command 'yt-dlp' returned non-zero exit status 1.";
       Print "Error output: ERROR: Video unavailable" ],
     Ok None)
  /\ download_audio_from_youtube_on accepting
       (example_world (Ok "[download] 100%") "out" [("notes.txt", 5%Z)] None
                      (Raise (PyException "unused")))
       "https://youtu.be/x" "out" "wav" "0"
     = ((download_prefix "https://youtu.be/x" "out" "wav" "0"
         ++ [Print "Error downloading audio: Could not find downloaded audio file with format wav"])%list,
        Ok None)
  /\ download_audio_from_youtube_on
       (refusing "233" (PyException "'ascii' codec can't encode character"))
       (example_world
          (Ok ("[ExtractAudio] Destination: out/Caf" ++ String "233" ".wav"))
          "out" [] None (Raise (PyException "unused")))
       "https://youtu.be/x" "out" "wav" "0"
     = ((download_prefix "https://youtu.be/x" "out" "wav" "0"
         ++ [Print ("Audio downloaded successfully to: out/Caf"
                    ++ String "233" ".wav");
             Print "Error downloading audio: 'ascii' codec can't encode character"])%list,
        Ok None)
  /\ transcribe_audio_on accepting
       (example_world (Ok "") "/tmp" [] (Some "key")
                      (Raise (PyException "401 Unauthorized")))
       "/tmp/song.wav" "key"
     = (([ OpenFile "/tmp/song.wav" "rb";
           TranscribeFile "key" "/tmp/song.wav" options;
           CloseFile "/tmp/song.wav" ]
         ++ [Print "Error during transcription: 401 Unauthorized"])%list,
        Ok tt)
  /\ (exists t r,
        download_audio_from_youtube_on accepting
          (example_world (Ok "[download] 100%") "out" [("clip.wav", 5%Z)] None
                         (Raise (PyException "unused")))
          "https://youtu.be/x" "out" "wav" "0" = (t, Ok r))
  /\ (exists t,
        transcribe_audio_on accepting
          (example_world (Ok "") "/tmp" [] (Some "key")
                         (Ok {| to_json := "{}" |}))
          "/tmp/song.wav" "key" = (t, Ok tt)).
Proof.
  destruct failures_stop_when_reports_print
    as (Hbody & Hrun & Hfile & Hret & Htr & Htret).
  split; [|split; [|split; [|split; [|split]]]].
  - exact (Hrun accepting
             (example_world
                (Raise (CalledProcessError
                          "Command 'yt-dlp' returned non-zero exit status 1."
                          "ERROR: Video unavailable"))
                "out" [] None (Raise (PyException "unused")))
             "https://youtu.be/x" "out" "wav" "0" _ _
             eq_refl eq_refl eq_refl eq_refl eq_refl).
  - exact (Hfile accepting
             (example_world (Ok "[download] 100%") "out"
                [("notes.txt", 5%Z)] None (Raise (PyException "unused")))
             "https://youtu.be/x" "out" "wav" "0" "[download] 100%"
             ["notes.txt"] eq_refl eq_refl eq_refl eq_refl eq_refl eq_refl
             eq_refl).
  - apply (Hbody (refusing "233"
                    (PyException "'ascii' codec can't encode character"))
                 (example_world
                    (Ok ("[ExtractAudio] Destination: out/Caf"
                         ++ String "233" ".wav"))
                    "out" [] None (Raise (PyException "unused")))
                 "https://youtu.be/x" "out" "wav" "0"
                 (download_prefix "https://youtu.be/x" "out" "wav" "0"
                  ++ [Print ("Audio downloaded successfully to: out/Caf"
                             ++ String "233" ".wav")])%list
                 (PyException "'ascii' codec can't encode character")).
    + reflexivity.
    + intros text [<-|[]]. reflexivity.
  - exact (Htr accepting
             (example_world (Ok "") "/tmp" [] (Some "key")
                            (Raise (PyException "401 Unauthorized")))
             "/tmp/song.wav" "key" _ _ eq_refl eq_refl).
  - exact (Hret accepting _ _ _ _ _ (fun _ _ _ => eq_refl)).
  - exact (Htret accepting _ _ _ (fun _ => eq_refl)).
Defined.

(** C8. Whenever the first destination line of the output does not contain
    the separator its branch splits at (the marker followed by a space),
    the index into the pieces fails, the generic handler reports it, and
    the download returns [None], although the line holds a marker. *)
Theorem marker_without_separator_returns_None
  (w : World) (url output_path format quality stdout line : string) :
  os_makedirs w output_path = Ok tt ->
  subprocess_run w (yt_dlp_command url output_path format quality) = Ok stdout ->
  first_matching_line format (PyStr.split stdout PyStr.LF) = Some line ->
  PyStr.contains (separator_of line) line = false ->
  matching_line format line = true
  /\ In line (PyStr.split stdout PyStr.LF)
  /\ parse_destination line = ([], Raise (PyException "list index out of range"))
  /\ download_audio_from_youtube w url output_path format quality
     = ((download_prefix url output_path format quality
         ++ [Print "Error downloading audio: list index out of range"])%list,
        Ok None).
Proof.
  intros Hmk Hrun Hsome Hsep.
  destruct (find_some _ _ Hsome) as [Hin Hmatch].
  repeat split; trivial.
  - unfold parse_destination. now rewrite (split_without_separator _ _ Hsep).
  - exact (download_missing_separator _ _ _ _ _ _ Hmk Hrun _ Hsome Hsep).
Qed.

(** The generic marker with no space after the colon. *)
Lemma marker_without_separator_returns_None_witness :
  PyStr.contains "Destination:" "[download] Destination:clip.wav" = true
  /\ download_audio_from_youtube
       (example_world (Ok ("[youtube] Extracting URL" ++ PyStr.LF
                           ++ "[download] Destination:clip.wav"))
                      "out" [("clip.wav", 7%Z)] None
                      (Raise (PyException "unused")))
       "https://youtu.be/x" "out" "wav" "0"
     = ([ MakeDirs "out";
          Print "Downloading audio from: https://youtu.be/x";
          RunProcess ["yt-dlp"; "-x"; "--audio-format"; "wav";
                      "--audio-quality"; "0"; "-o"; "out/%(title)s.%(ext)s";
                      "--no-playlist"; "https://youtu.be/x"];
          Print "Error downloading audio: list index out of range" ],
        Ok None).
Proof.
  split; [reflexivity|].
  exact (proj2 (proj2 (proj2
    (marker_without_separator_returns_None
       (example_world (Ok ("[youtube] Extracting URL" ++ PyStr.LF
                           ++ "[download] Destination:clip.wav"))
                      "out" [("clip.wav", 7%Z)] None
                      (Raise (PyException "unused")))
       "https://youtu.be/x" "out" "wav" "0"
       ("[youtube] Extracting URL" ++ PyStr.LF ++ "[download] Destination:clip.wav")
       "[download] Destination:clip.wav"
       eq_refl eq_refl eq_refl eq_refl)))).
Defined.

(** C9. With [-t] and a download that returned a path (one that is not
    empty, which is what [main] tests), the first thing [main] does after
    the download is to print what it read from the credential variable:
    the key itself when there is one, [None] when there is none.  This
    comes before the test of the key, whose outcome is in the rest of the
    trace. *)
Theorem credential_is_printed
  (w : World) (args : Args) (t : list event) (audio_file : option string) :
  transcribe args = true ->
  download_audio_from_youtube w (url args) (output args) (format args)
                              (quality args) = (t, Ok audio_file) ->
  truthy audio_file = true ->
  (exists rest,
     fst (main w args)
     = (t ++ Print (str_opt (os_getenv w "DEEPGRAM_API_KEY")) :: rest)%list)
  /\ (forall key, os_getenv w "DEEPGRAM_API_KEY" = Some key ->
        In (Print key) (fst (main w args)))
  /\ (os_getenv w "DEEPGRAM_API_KEY" = None ->
        In (Print "None") (fst (main w args))).
Proof.
  intros Ht Hd Ha.
  destruct (transcribe_if_requested_prints_key w args audio_file Ht Ha)
    as [rest Hrest].
  assert (Hmain : fst (main w args)
                  = (t ++ Print (str_opt (os_getenv w "DEEPGRAM_API_KEY"))
                       :: rest)%list)
    by (rewrite (main_after_download w args t audio_file Hd); cbn [fst];
        now rewrite Hrest).
  split; [now exists rest|].
  split.
  - intros key Hkey. rewrite Hmain, Hkey. apply in_or_app. right. now left.
  - intros Hkey. rewrite Hmain, Hkey. apply in_or_app. right. now left.
Qed.

(** The key is [dg-secret]. *)
Lemma credential_is_printed_witness :
  In (Print "dg-secret")
     (fst (main (example_world (Ok "[ExtractAudio] Destination: out/clip.wav")
                               "out" [("clip.wav", 7%Z)] (Some "dg-secret")
                               (Ok {| to_json := "{}" |}))
                {| url := "https://youtu.be/x"; output := "out";
                   transcribe := true; format := "wav"; quality := "0" |})).
Proof.
  exact (proj1 (proj2 (credential_is_printed
                  (example_world (Ok "[ExtractAudio] Destination: out/clip.wav")
                                 "out" [("clip.wav", 7%Z)] (Some "dg-secret")
                                 (Ok {| to_json := "{}" |}))
                  {| url := "https://youtu.be/x"; output := "out";
                     transcribe := true; format := "wav"; quality := "0" |}
                  _ (Some "out/clip.wav") eq_refl eq_refl eq_refl))
               "dg-secret" eq_refl).
Defined.

(** C10. A path found by the directory scan is the output directory joined
    with the name of a file that the directory listed and that ends with
    the dot and the requested format.  A path found on a destination line
    is the stripped second piece of that line: it occurs in the downloader's
    output as it stands, and it is returned whatever the directory holds,
    so it is checked against neither the files that exist, nor the output
    directory, nor the format, as the last part shows. *)
Theorem resolved_path_provenance :
  (forall w url output_path format quality stdout p,
     os_makedirs w output_path = Ok tt ->
     subprocess_run w (yt_dlp_command url output_path format quality) = Ok stdout ->
     first_matching_line format (PyStr.split stdout PyStr.LF) = None ->
     snd (download_audio_from_youtube w url output_path format quality)
     = Ok (Some p) ->
     exists names f,
       os_listdir w output_path = Ok names
       /\ In f names
       /\ PyStr.endswith f ("." ++ format) = true
       /\ p = PosixPath.join output_path f)
  /\ (forall w url output_path format quality stdout line p,
        os_makedirs w output_path = Ok tt ->
        subprocess_run w (yt_dlp_command url output_path format quality) = Ok stdout ->
        first_matching_line format (PyStr.split stdout PyStr.LF) = Some line ->
        snd (download_audio_from_youtube w url output_path format quality)
        = Ok (Some p) ->
        (exists piece,
           nth_error (PyStr.split line (separator_of line)) 1 = Some piece
           /\ p = PyStr.strip piece)
        /\ occurs_in p stdout
        /\ forall w',
             os_makedirs w' output_path = Ok tt ->
             subprocess_run w' (yt_dlp_command url output_path format quality)
             = Ok stdout ->
             snd (download_audio_from_youtube w' url output_path format quality)
             = Ok (Some p))
  /\ snd (download_audio_from_youtube
            (example_world (Ok "[ExtractAudio] Destination: /elsewhere/clip.mp3")
                           "out" [] None (Raise (PyException "unused")))
            "https://youtu.be/x" "out" "wav" "0")
     = Ok (Some "/elsewhere/clip.mp3").
Proof.
  split; [|split; [|reflexivity]].
  - intros w url output_path format quality stdout p Hmk Hrun Hnone Hp.
    pose proof (locate_without_destination w output_path format stdout Hnone) as Hl.
    destruct (scan_directory w output_path format) as [t [f|e]] eqn:Hs.
    + rewrite (download_located w _ _ _ _ stdout Hmk Hrun f) in Hp
        by now rewrite Hl.
      injection Hp as <-.
      exact (scan_directory_returns _ _ _ _ _ Hs).
    + rewrite (download_not_located w _ _ _ _ stdout Hmk Hrun e) in Hp
        by now rewrite Hl.
      discriminate.
  - intros w url output_path format quality stdout line p Hmk Hrun Hsome Hp.
    destruct (nth_error (PyStr.split line (separator_of line)) 1)
      as [piece|] eqn:Hpiece.
    + rewrite (download_first_match w _ _ _ _ stdout Hmk Hrun line piece
                 Hsome Hpiece) in Hp.
      injection Hp as <-.
      split; [now exists piece|]. split.
      * destruct (find_some _ _ Hsome) as [Hin _].
        apply (occurs_in_trans _ piece); [apply strip_occurs|].
        apply (occurs_in_trans _ line).
        -- apply split_piece_occurs with (sep := separator_of line).
           exact (nth_error_In _ _ Hpiece).
        -- now apply split_piece_occurs with (sep := PyStr.LF).
      * intros w' Hmk' Hrun'.
        now rewrite (download_first_match w' _ _ _ _ stdout Hmk' Hrun'
                       line piece Hsome Hpiece).
    + rewrite (download_not_located w _ _ _ _ stdout Hmk Hrun
                 (PyException "list index out of range")) in Hp.
      * discriminate.
      * now rewrite (locate_with_destination _ _ _ _ _ Hsome), Hpiece.
Qed.

(** The fallback on a directory with one recording, and a destination line
    that names a file of another format in another directory. *)
Lemma resolved_path_provenance_witness :
  (exists names f,
     os_listdir (example_world (Ok "[download] 100%") "out"
                   [("clip.wav", 7%Z)] None (Raise (PyException "unused")))
                "out" = Ok names
     /\ In f names
     /\ PyStr.endswith f ".wav" = true
     /\ "out/clip.wav" = PosixPath.join "out" f)
  /\ occurs_in "/elsewhere/clip.mp3"
               "[ExtractAudio] Destination: /elsewhere/clip.mp3".
Proof.
  destruct resolved_path_provenance as (Hscan & Hline & _). split.
  - exact (Hscan (example_world (Ok "[download] 100%") "out"
                    [("clip.wav", 7%Z)] None (Raise (PyException "unused")))
                 "https://youtu.be/x" "out" "wav" "0" "[download] 100%"
                 "out/clip.wav" eq_refl eq_refl eq_refl eq_refl).
  - exact (proj1 (proj2
      (Hline (example_world (Ok "[ExtractAudio] Destination: /elsewhere/clip.mp3")
                "out" [] None (Raise (PyException "unused")))
             "https://youtu.be/x" "out" "wav" "0"
             "[ExtractAudio] Destination: /elsewhere/clip.mp3"
             "[ExtractAudio] Destination: /elsewhere/clip.mp3"
             "/elsewhere/clip.mp3" eq_refl eq_refl eq_refl eq_refl))).
Defined.

(* ================================================================== *)
(** * More on strings *)

Lemma prefix_char (c d : ascii) (s : string) :
  String.prefix (String c "") (String d s) = Ascii.eqb c d.
Proof.
  cbn [String.prefix]. destruct (ascii_dec c d) as [->|ne].
  - rewrite Ascii.eqb_refl. now destruct s.
  - symmetry. now apply Ascii.eqb_neq.
Qed.

Lemma split_from_not_nil (sep s : string) (skip : nat) :
  PyStr.split_from sep skip s <> [].
Proof.
  destruct (split_from_pieces sep s skip) as (h & tl & -> & _). discriminate.
Qed.

Lemma push_front_app (c : ascii) (l l' : list string) :
  l <> [] -> PyStr.push_front c (l ++ l')%list = (PyStr.push_front c l ++ l')%list.
Proof. destruct l; [congruence | reflexivity]. Qed.

(** Splitting at a single character: the pieces of what comes before an
    occurrence, followed by the pieces of what comes after it. *)
Lemma split_char_app (c : ascii) (a b : string) :
  PyStr.split (a ++ String c b) (String c "")
  = (PyStr.split a (String c "") ++ PyStr.split b (String c ""))%list.
Proof.
  unfold PyStr.split. induction a as [|d a IH].
  - change ("" ++ String c b) with (String c b).
    cbn [PyStr.split_from]. rewrite prefix_char, Ascii.eqb_refl. reflexivity.
  - change (String d a ++ String c b) with (String d (a ++ String c b)).
    cbn [PyStr.split_from]. rewrite !prefix_char.
    destruct (Ascii.eqb c d).
    + cbn [String.length Nat.sub]. now rewrite IH.
    + rewrite IH. apply push_front_app, split_from_not_nil.
Qed.

Lemma rstrip_idempotent (s : string) : PyStr.rstrip (PyStr.rstrip s) = PyStr.rstrip s.
Proof.
  induction s as [|c s IH]; [reflexivity|].
  cbn [PyStr.rstrip]. destruct (PyStr.rstrip s) as [|d r] eqn:E.
  - destruct (PyStr.isspace c) eqn:Hc; [reflexivity|].
    cbn [PyStr.rstrip]. now rewrite Hc.
  - change (PyStr.rstrip (String c (String d r)))
      with (match PyStr.rstrip (String d r) with
            | "" => if PyStr.isspace c then "" else String c ""
            | String _ _ as r' => String c r'
            end).
    now rewrite IH.
Qed.

Lemma lstrip_head (s : string) :
  PyStr.lstrip s = ""
  \/ exists c u, PyStr.lstrip s = String c u /\ PyStr.isspace c = false.
Proof.
  induction s as [|c s IH]; [now left|].
  cbn [PyStr.lstrip]. destruct (PyStr.isspace c) eqn:Hc; [exact IH|].
  right. now exists c, s.
Qed.

Lemma rstrip_keeps_head (c : ascii) (u : string) :
  PyStr.isspace c = false -> exists r, PyStr.rstrip (String c u) = String c r.
Proof.
  intros Hc. cbn [PyStr.rstrip]. destruct (PyStr.rstrip u) as [|d r].
  - rewrite Hc. now exists "".
  - now exists (String d r).
Qed.

(** What [strip] returns has no white space left at either end. *)
Lemma strip_idempotent (s : string) : PyStr.strip (PyStr.strip s) = PyStr.strip s.
Proof.
  unfold PyStr.strip.
  destruct (lstrip_head s) as [-> | (c & u & -> & Hc)]; [reflexivity|].
  destruct (rstrip_keeps_head c u Hc) as [r Hr]. rewrite Hr.
  cbn [PyStr.lstrip]. rewrite Hc, <- Hr. apply rstrip_idempotent.
Qed.

Lemma append_cancel_l (a b c : string) : a ++ b = a ++ c -> b = c.
Proof.
  induction a as [|d a IH]; simpl; intros H; [exact H|].
  injection H as H. now apply IH.
Qed.

Lemma append_eq_append (a b c d : string) :
  a ++ b = c ++ d ->
  (exists m, a = c ++ m /\ d = m ++ b) \/ (exists m, c = a ++ m /\ b = m ++ d).
Proof.
  revert c. induction a as [|x a IH]; intros c H.
  - right. exists c. now split.
  - destruct c as [|y c].
    + left. exists (String x a). split; [reflexivity|]. symmetry. exact H.
    + simpl in H. injection H as -> H.
      destruct (IH c H) as [(m & -> & ->) | (m & -> & ->)].
      * left. now exists m.
      * right. now exists m.
Qed.


(* ================================================================== *)
(** * More on the fetcher *)

Lemma find_app_found {A} (f : A -> bool) (l l' : list A) (x : A) :
  find f l = Some x -> find f (l ++ l')%list = Some x.
Proof.
  induction l as [|y l IH]; [discriminate|].
  cbn [find app]. destruct (f y); [trivial | exact IH].
Qed.

(** A destination line stays the first one when more output follows. *)
Lemma first_matching_line_more_output (format head tail line : string) :
  first_matching_line format (PyStr.split head PyStr.LF) = Some line ->
  first_matching_line format (PyStr.split (head ++ PyStr.LF ++ tail) PyStr.LF)
  = Some line.
Proof.
  unfold PyStr.LF. intros H.
  change (String "010" "" ++ tail) with (String "010" tail).
  rewrite split_char_app. now apply find_app_found.
Qed.

(** With a destination line, the download is decided by that line. *)
Lemma download_with_destination
  (w : World) (url output_path format quality stdout line : string) :
  os_makedirs w output_path = Ok tt ->
  subprocess_run w (yt_dlp_command url output_path format quality) = Ok stdout ->
  first_matching_line format (PyStr.split stdout PyStr.LF) = Some line ->
  download_audio_from_youtube w url output_path format quality
  = match nth_error (PyStr.split line (separator_of line)) 1 with
    | Some piece =>
        ((download_prefix url output_path format quality
          ++ [Print ("Audio downloaded successfully to: " ++ PyStr.strip piece)])%list,
         Ok (Some (PyStr.strip piece)))
    | None =>
        ((download_prefix url output_path format quality
          ++ [Print "Error downloading audio: list index out of range"])%list,
         Ok None)
    end.
Proof.
  intros Hmk Hrun Hsome.
  destruct (nth_error _ 1) as [piece|] eqn:Hpiece.
  - exact (download_first_match w _ _ _ _ stdout Hmk Hrun line piece Hsome Hpiece).
  - rewrite (download_not_located w _ _ _ _ stdout Hmk Hrun
               (PyException "list index out of range")); [reflexivity|].
    now rewrite (locate_with_destination _ _ _ _ _ Hsome), Hpiece.
Qed.

(** Without a destination line, the download is decided by the scan of the
    directory. *)
Lemma download_without_destination
  (w : World) (url output_path format quality stdout : string) :
  os_makedirs w output_path = Ok tt ->
  subprocess_run w (yt_dlp_command url output_path format quality) = Ok stdout ->
  first_matching_line format (PyStr.split stdout PyStr.LF) = None ->
  snd (download_audio_from_youtube w url output_path format quality)
  = match snd (scan_directory w output_path format) with
    | Ok f => Ok (Some f)
    | Raise _ => Ok None
    end.
Proof.
  intros Hmk Hrun Hnone.
  pose proof (locate_without_destination w output_path format stdout Hnone) as Hl.
  destruct (scan_directory w output_path format) as [t [f|e]] eqn:Hs; cbn [snd].
  - now rewrite (download_located w _ _ _ _ stdout Hmk Hrun f) by now rewrite Hl.
  - now rewrite (download_not_located w _ _ _ _ stdout Hmk Hrun e) by now rewrite Hl.
Qed.

Lemma mapM_ask_raise {A B} (f : A -> result B) (l : list A) (x : A) (e : exn) :
  In x l -> f x = Raise e ->
  exists e', mapM (fun y => ask (f y)) l = ([], Raise e').
Proof.
  induction l as [|y l IH]; intros Hin Hx; [destruct Hin|].
  cbn [mapM]. unfold bind, ask at 1.
  destruct (f y) as [b|e1] eqn:Hy; [|now exists e1].
  destruct Hin as [->|Hin]; [congruence|].
  destruct (IH Hin Hx) as [e' ->]. now exists e'.
Qed.

(** X1. Output that follows the first destination line does not change the
    download: a run whose output goes on after that line prints and returns
    what the run that stops there does, whatever the directories hold. *)
Theorem later_output_is_ignored
  (w w' : World) (url output_path format quality head tail line : string) :
  os_makedirs w output_path = Ok tt ->
  os_makedirs w' output_path = Ok tt ->
  subprocess_run w (yt_dlp_command url output_path format quality) = Ok head ->
  subprocess_run w' (yt_dlp_command url output_path format quality)
  = Ok (head ++ PyStr.LF ++ tail) ->
  first_matching_line format (PyStr.split head PyStr.LF) = Some line ->
  download_audio_from_youtube w' url output_path format quality
  = download_audio_from_youtube w url output_path format quality.
Proof.
  intros Hmk Hmk' Hrun Hrun' Hsome.
  rewrite (download_with_destination w _ _ _ _ head line Hmk Hrun Hsome).
  apply (download_with_destination w' _ _ _ _ _ line Hmk' Hrun').
  now apply first_matching_line_more_output.
Qed.

Lemma later_output_is_ignored_witness :
  download_audio_from_youtube
    (example_world (Ok ("[download] Destination: a.wav" ++ PyStr.LF
                        ++ "[ExtractAudio] Destination: b.wav"))
                   "out" [("c.wav", 9%Z)] None (Raise (PyException "unused")))
    "https://youtu.be/x" "out" "wav" "0"
  = download_audio_from_youtube
      (example_world (Ok "[download] Destination: a.wav")
                     "out" [] None (Raise (PyException "unused")))
      "https://youtu.be/x" "out" "wav" "0".
Proof.
  exact (later_output_is_ignored
           (example_world (Ok "[download] Destination: a.wav")
                          "out" [] None (Raise (PyException "unused")))
           (example_world (Ok ("[download] Destination: a.wav" ++ PyStr.LF
                               ++ "[ExtractAudio] Destination: b.wav"))
                          "out" [("c.wav", 9%Z)] None
                          (Raise (PyException "unused")))
           "https://youtu.be/x" "out" "wav" "0"
           "[download] Destination: a.wav" "[ExtractAudio] Destination: b.wav"
           "[download] Destination: a.wav"
           eq_refl eq_refl eq_refl eq_refl eq_refl).
Defined.

(** X2. When the separator of the first destination line occurs once in
    that line, the download returns what follows it, stripped, and says
    so. *)
Theorem destination_path_follows_separator
  (w : World) (url output_path format quality stdout line pre rest : string) :
  os_makedirs w output_path = Ok tt ->
  subprocess_run w (yt_dlp_command url output_path format quality) = Ok stdout ->
  first_matching_line format (PyStr.split stdout PyStr.LF) = Some line ->
  line = pre ++ separator_of line ++ rest ->
  no_match_before (separator_of line) pre (separator_of line ++ rest) = true ->
  PyStr.contains (separator_of line) rest = false ->
  download_audio_from_youtube w url output_path format quality
  = ((download_prefix url output_path format quality
      ++ [Print ("Audio downloaded successfully to: " ++ PyStr.strip rest)])%list,
     Ok (Some (PyStr.strip rest))).
Proof.
  intros Hmk Hrun Hsome Hline Hpre Hrest.
  apply (download_first_match w _ _ _ _ stdout Hmk Hrun line rest Hsome).
  assert (Hne : separator_of line <> "")
    by (unfold separator_of; destruct (extract_audio_line line); discriminate).
  rewrite Hline at 1.
  now rewrite (split_second_piece _ _ _ Hne Hpre Hrest).
Qed.

Lemma destination_path_follows_separator_witness :
  download_audio_from_youtube
    (example_world (Ok "[download] Destination: out/My Clip.wav")
                   "out" [] None (Raise (PyException "unused")))
    "https://youtu.be/x" "out" "wav" "0"
  = ((download_prefix "https://youtu.be/x" "out" "wav" "0"
      ++ [Print ("Audio downloaded successfully to: "
                 ++ PyStr.strip "out/My Clip.wav")])%list,
     Ok (Some (PyStr.strip "out/My Clip.wav"))).
Proof.
  exact (destination_path_follows_separator
           (example_world (Ok "[download] Destination: out/My Clip.wav")
                          "out" [] None (Raise (PyException "unused")))
           "https://youtu.be/x" "out" "wav" "0"
           "[download] Destination: out/My Clip.wav"
           "[download] Destination: out/My Clip.wav"
           "[download] " "out/My Clip.wav"
           eq_refl eq_refl eq_refl eq_refl eq_refl eq_refl).
Defined.

(** X3. A path taken from a destination line has no white space at its
    ends: stripping it again changes nothing. *)
Theorem destination_path_is_stripped
  (w : World) (url output_path format quality stdout line p : string) :
  os_makedirs w output_path = Ok tt ->
  subprocess_run w (yt_dlp_command url output_path format quality) = Ok stdout ->
  first_matching_line format (PyStr.split stdout PyStr.LF) = Some line ->
  snd (download_audio_from_youtube w url output_path format quality)
  = Ok (Some p) ->
  PyStr.strip p = p.
Proof.
  intros Hmk Hrun Hsome Hp.
  rewrite (download_with_destination w _ _ _ _ stdout line Hmk Hrun Hsome) in Hp.
  destruct (nth_error _ 1) as [piece|]; [|discriminate].
  injection Hp as <-. apply strip_idempotent.
Qed.

Lemma destination_path_is_stripped_witness :
  PyStr.strip "out/clip.wav" = "out/clip.wav".
Proof.
  exact (destination_path_is_stripped
           (example_world (Ok "[ExtractAudio] Destination:   out/clip.wav  ")
                          "out" [] None (Raise (PyException "unused")))
           "https://youtu.be/x" "out" "wav" "0"
           "[ExtractAudio] Destination:   out/clip.wav  "
           "[ExtractAudio] Destination:   out/clip.wav  "
           "out/clip.wav" eq_refl eq_refl eq_refl eq_refl).
Defined.

Lemma combine_app_same {A B} (ka kb : list A) (a b : list B) :
  List.length ka = List.length a ->
  combine (ka ++ kb) (a ++ b) = (combine ka a ++ combine kb b)%list.
Proof.
  revert a. induction ka as [|k ka IH]; intros [|x a] Hlen; try discriminate.
  - reflexivity.
  - cbn [app combine]. f_equal. apply IH. now injection Hlen.
Qed.

(** The directory scan when the newest files are known: the first of them
    in the order of the listing. *)
Lemma scan_directory_first_newest (w : World) (output_path format : string)
  (names a b : list string) (f : string) (t : Z) :
  os_listdir w output_path = Ok names ->
  audio_files_of format names = (a ++ f :: b)%list ->
  os_path_getmtime w (PosixPath.join output_path f) = Ok t ->
  (forall g, In g a ->
     exists t', os_path_getmtime w (PosixPath.join output_path g) = Ok t'
                /\ (t' < t)%Z) ->
  (forall g, In g b ->
     exists t', os_path_getmtime w (PosixPath.join output_path g) = Ok t'
                /\ (t' <= t)%Z) ->
  scan_directory w output_path format = ([], Ok (PosixPath.join output_path f)).
Proof.
  intros Hls Hfiles Hf Ha Hb.
  unfold scan_directory, bind, ask at 1. rewrite Hls, Hfiles.
  destruct (mapM_ask_ok
              (fun x => os_path_getmtime w (PosixPath.join output_path x))
              (a ++ f :: b)%list) as (keys & Hm & Hall).
  { intros g Hg. apply in_app_or in Hg as [Hg|[<-|Hg]].
    - destruct (Ha g Hg) as (t' & Ht' & _). now exists t'.
    - now exists t.
    - destruct (Hb g Hg) as (t' & Ht' & _). now exists t'. }
  destruct (a ++ f :: b)%list as [|x l] eqn:El; [now destruct a|].
  rewrite Hm. rewrite <- El in *. clear El x l.
  apply Forall2_app_inv_l in Hall as (ka & kfb & Hka & Hkfb & ->).
  inversion Hkfb as [|? kf ? kb Hkf Hkb]; subst.
  rewrite (combine_app_same ka (kf :: kb) a (f :: b))
    by (symmetry; exact (Forall2_length Hka)).
  cbn [combine].
  destruct (sort_desc_head_first (combine ka a) (combine kb b) (kf, f))
    as [r Hr].
  - intros [k g] Hin. cbn [fst].
    pose proof (Forall2_combine_in _ _ _ Hka _ _ Hin) as Hg. cbn beta in Hg.
    destruct (Ha g (in_combine_r _ _ _ _ Hin)) as (t' & Ht' & Hlt).
    rewrite Hf in Hkf. rewrite Ht' in Hg.
    injection Hkf as <-. injection Hg as <-. exact Hlt.
  - intros [k g] Hin. cbn [fst].
    pose proof (Forall2_combine_in _ _ _ Hkb _ _ Hin) as Hg. cbn beta in Hg.
    destruct (Hb g (in_combine_r _ _ _ _ Hin)) as (t' & Ht' & Hle).
    rewrite Hf in Hkf. rewrite Ht' in Hg.
    injection Hkf as <-. injection Hg as <-. exact Hle.
  - rewrite Hr. reflexivity.
Qed.

(** X4. When several files of the format share the latest modification
    time, the directory scan returns the one that [os.listdir] listed
    first among them. *)
Theorem fallback_prefers_first_listed
  (w : World) (url output_path format quality stdout : string)
  (names a b : list string) (f : string) (t : Z) :
  os_makedirs w output_path = Ok tt ->
  subprocess_run w (yt_dlp_command url output_path format quality) = Ok stdout ->
  first_matching_line format (PyStr.split stdout PyStr.LF) = None ->
  os_listdir w output_path = Ok names ->
  audio_files_of format names = (a ++ f :: b)%list ->
  os_path_getmtime w (PosixPath.join output_path f) = Ok t ->
  (forall g, In g a ->
     exists t', os_path_getmtime w (PosixPath.join output_path g) = Ok t'
                /\ (t' < t)%Z) ->
  (forall g, In g b ->
     exists t', os_path_getmtime w (PosixPath.join output_path g) = Ok t'
                /\ (t' <= t)%Z) ->
  snd (download_audio_from_youtube w url output_path format quality)
  = Ok (Some (PosixPath.join output_path f)).
Proof.
  intros Hmk Hrun Hnone Hls Hfiles Hf Ha Hb.
  rewrite (download_without_destination w _ _ _ _ stdout Hmk Hrun Hnone).
  now rewrite (scan_directory_first_newest w _ _ names a b f t Hls Hfiles Hf Ha Hb).
Qed.

(** Three recordings, the last two modified at the same time. *)
Lemma fallback_prefers_first_listed_witness :
  snd (download_audio_from_youtube
         (example_world (Ok "[download] 100%") "out"
            [("a.wav", 1%Z); ("notes.txt", 9%Z); ("b.wav", 5%Z); ("c.wav", 5%Z)]
            None (Raise (PyException "unused")))
         "https://youtu.be/x" "out" "wav" "0")
  = Ok (Some (PosixPath.join "out" "b.wav")).
Proof.
  apply (fallback_prefers_first_listed _ "https://youtu.be/x" "out" "wav" "0"
           "[download] 100%" ["a.wav"; "notes.txt"; "b.wav"; "c.wav"]
           ["a.wav"] ["c.wav"] "b.wav" 5%Z);
    try reflexivity.
  - intros g [<-|[]]. exists 1%Z. split; [reflexivity | lia].
  - intros g [<-|[]]. exists 5%Z. split; [reflexivity | lia].
Defined.

(** X6. When the output directory cannot be made, the downloader is not
    run: the error is reported and the download returns [None]. *)
Theorem no_directory_no_downloader
  (w : World) (url output_path format quality : string) (e : exn) :
  os_makedirs w output_path = Raise e ->
  download_audio_from_youtube w url output_path format quality
  = (MakeDirs output_path :: fst (download_handler e), Ok None)
  /\ count_events is_run_event
       (fst (download_audio_from_youtube w url output_path format quality)) = 0.
Proof.
  intros Hmk.
  assert (Hd : download_audio_from_youtube w url output_path format quality
               = (MakeDirs output_path :: fst (download_handler e), Ok None)).
  { unfold download_audio_from_youtube, download_body, bind, call, try_except.
    rewrite Hmk, download_handler_spec. now destruct e. }
  split; [exact Hd|]. rewrite Hd, download_handler_spec. now destruct e.
Qed.

(** The directory is not writable. *)
Lemma no_directory_no_downloader_witness :
  download_audio_from_youtube
    (without_makedirs
       (example_world (Ok "[ExtractAudio] Destination: /root/out/clip.wav")
                      "/root/out" [] None (Raise (PyException "unused")))
       (PyException "[Errno 13] Permission denied: '/root/out'"))
    "https://youtu.be/x" "/root/out" "wav" "0"
  = ([ MakeDirs "/root/out";
       Print "Error downloading audio: [Errno 13] Permission denied: '/root/out'" ],
     Ok None).
Proof.
  exact (proj1 (no_directory_no_downloader
                  (without_makedirs
                     (example_world
                        (Ok "[ExtractAudio] Destination: /root/out/clip.wav")
                        "/root/out" [] None (Raise (PyException "unused")))
                     (PyException "[Errno 13] Permission denied: '/root/out'"))
                  "https://youtu.be/x" "/root/out" "wav" "0" _ eq_refl)).
Defined.

(** X7. When the modification time of one of the files of the format cannot
    be read, the directory scan fails as a whole: the download returns
    [None], whatever the other files are. *)
Theorem unreadable_time_fails_the_scan
  (w : World) (url output_path format quality stdout : string)
  (names : list string) (f : string) (e : exn) :
  os_makedirs w output_path = Ok tt ->
  subprocess_run w (yt_dlp_command url output_path format quality) = Ok stdout ->
  first_matching_line format (PyStr.split stdout PyStr.LF) = None ->
  os_listdir w output_path = Ok names ->
  In f (audio_files_of format names) ->
  os_path_getmtime w (PosixPath.join output_path f) = Raise e ->
  snd (download_audio_from_youtube w url output_path format quality) = Ok None.
Proof.
  intros Hmk Hrun Hnone Hls Hin Hf.
  rewrite (download_without_destination w _ _ _ _ stdout Hmk Hrun Hnone).
  unfold scan_directory, bind, ask at 1. rewrite Hls.
  destruct (audio_files_of format names) as [|x l] eqn:Ea; [destruct Hin|].
  destruct (mapM_ask_raise
              (fun y => os_path_getmtime w (PosixPath.join output_path y))
              (x :: l) f e Hin Hf) as [e' ->].
  reflexivity.
Qed.

(** A good recording beside a link to a recording that is gone. *)
Lemma unreadable_time_fails_the_scan_witness :
  snd (download_audio_from_youtube
         (without_mtime
            (example_world (Ok "[download] 100%") "out"
               [("good.wav", 5%Z); ("gone.wav", 1%Z)] None
               (Raise (PyException "unused")))
            "out/gone.wav" (PyException "[Errno 2] No such file or directory"))
         "https://youtu.be/x" "out" "wav" "0")
  = Ok None.
Proof.
  apply (unreadable_time_fails_the_scan _ "https://youtu.be/x" "out" "wav" "0"
           "[download] 100%" ["good.wav"; "gone.wav"] "gone.wav"
           (PyException "[Errno 2] No such file or directory"));
    try reflexivity.
  right. now left.
Defined.

(* ================================================================== *)
(** * More on the transcriber *)

Lemma transcript_path_differs (p : string) : transcript_path p <> p.
Proof.
  destruct (splitext_spec p) as [Happ Hext]. unfold transcript_path.
  destruct (PosixPath.splitext p) as [root ext]. cbn [fst snd] in *.
  intros H. rewrite <- Happ in H. apply append_cancel_l in H.
  destruct Hext as [-> | (e & -> & _)]; discriminate.
Qed.

(** X8. The transcript never takes the place of the recording: the
    transcript path differs from the audio path, and the transcriber opens
    the audio file for reading only and never writes to it. *)
Theorem audio_file_is_only_read (w : World) (audio_file_path api_key : string) :
  transcript_path audio_file_path <> audio_file_path
  /\ (forall mode,
        In (OpenFile audio_file_path mode)
           (fst (transcribe_audio w audio_file_path api_key)) ->
        mode = "rb")
  /\ (forall data,
        ~ In (WriteFile audio_file_path data)
             (fst (transcribe_audio w audio_file_path api_key))).
Proof.
  pose proof (transcript_path_differs audio_file_path) as Hne.
  split; [exact Hne|]. split.
  - intros mode Hin. destruct (String.eqb mode "rb") eqn:E.
    + now apply String.eqb_eq.
    + destruct (transcribe_writes_at_transcript_path w _ _ _ Hin)
        as [H | [data H]].
      * cbn [is_write_event]. now rewrite E.
      * injection H as H _. now elim Hne.
      * discriminate.
  - intros data Hin.
    destruct (transcribe_writes_at_transcript_path w _ _ _ Hin eq_refl)
      as [H | [data' H]].
    + discriminate.
    + injection H as H _. now elim Hne.
Qed.

Lemma audio_file_is_only_read_witness :
  transcript_path "/tmp/song.wav" <> "/tmp/song.wav"
  /\ forall data,
       ~ In (WriteFile "/tmp/song.wav" data)
            (fst (transcribe_audio
                    (example_world (Ok "") "/tmp" [] (Some "key")
                                   (Ok {| to_json := "{}" |}))
                    "/tmp/song.wav" "key")).
Proof.
  destruct (audio_file_is_only_read
              (example_world (Ok "") "/tmp" [] (Some "key")
                             (Ok {| to_json := "{}" |}))
              "/tmp/song.wav" "key") as (Hne & _ & Hwrite).
  split; [exact Hne | exact Hwrite].
Defined.

(** X9. The transcript is written next to the recording: for an audio path
    made of a directory, a separator and a file name, the transcript path
    is that directory, the separator and a file name. *)
Theorem transcript_is_next_to_audio (audio_file_path dir name : string) :
  audio_file_path = dir ++ "/" ++ name ->
  PyStr.contains "/" name = false ->
  exists name',
    transcript_path audio_file_path = dir ++ "/" ++ name'
    /\ PyStr.contains "/" name' = false.
Proof.
  intros Hp Hname.
  destruct (splitext_spec audio_file_path) as [Happ Hext].
  unfold transcript_path.
  destruct (PosixPath.splitext audio_file_path) as [root ext].
  cbn [fst snd] in *. rewrite Hp in Happ.
  assert (Hnosep : PyStr.contains "/" ext = false).
  { destruct Hext as [-> | (e & -> & _ & He)]; [reflexivity|].
    now rewrite contains_char_cons, He. }
  destruct (append_eq_append _ _ _ _ Happ) as [(m & -> & Hm) | (m & -> & Hm)].
  - destruct m as [|c m].
    + simpl in Hm. rewrite <- Hm in Hnosep.
      rewrite contains_char_cons in Hnosep. discriminate.
    + simpl in Hm. injection Hm as <- Hm.
      exists (m ++ "_transcript.json"). split.
      * now rewrite !append_assoc.
      * rewrite Hm, contains_char_append in Hname.
        apply orb_false_iff in Hname as [Hname _].
        now rewrite contains_char_append, Hname.
  - change ("/" ++ name) with (String "/" name) in Hm.
    rewrite Hm, contains_char_append, contains_char_cons in Hnosep.
    rewrite Ascii.eqb_refl, orb_true_r in Hnosep. discriminate.
Qed.

Lemma transcript_is_next_to_audio_witness :
  exists name',
    transcript_path "/data/talks/day.1/intro.wav" = "/data/talks/day.1" ++ "/" ++ name'
    /\ PyStr.contains "/" name' = false.
Proof.
  exact (transcript_is_next_to_audio "/data/talks/day.1/intro.wav"
           "/data/talks/day.1" "intro.wav" eq_refl eq_refl).
Defined.

(** X10. A transcription ends in one of two ways.  Either the client, the
    opening of the audio file, the request, the opening of the transcript
    and the write all succeed, and the trace ends with the message that the
    transcript was saved and the closing of the audio file; or one of them
    raises, and the trace ends with the report of that error. *)
Theorem transcription_outcomes (w : World) (audio_file_path api_key : string) :
  (exists response,
     DeepgramClient w api_key = Ok tt
     /\ py_open w audio_file_path "rb" = Ok tt
     /\ transcribe_file w api_key audio_file_path options = Ok response
     /\ py_open w (transcript_path audio_file_path) "w" = Ok tt
     /\ file_write w (transcript_path audio_file_path) (to_json response) = Ok tt
     /\ exists t,
          transcribe_audio w audio_file_path api_key
          = ((t ++ [ Print ("Transcript saved to: "
                            ++ transcript_path audio_file_path);
                     CloseFile audio_file_path ])%list, Ok tt))
  \/ (exists t e,
        transcribe_body w audio_file_path api_key = (t, Raise e)
        /\ transcribe_audio w audio_file_path api_key
           = ((t ++ [Print ("Error during transcription: " ++ str_exn e)])%list,
              Ok tt)).
Proof.
  destruct (transcribe_body w audio_file_path api_key) as [t [[]|e]] eqn:Hb.
  - left.
    unfold transcribe_body, with_open, finally, bind, call, ask, print in Hb.
    destruct (DeepgramClient w api_key) as [[]|e1] eqn:E1; [|discriminate].
    destruct (py_open w audio_file_path "rb") as [[]|e2] eqn:E2; [|discriminate].
    destruct (transcribe_file w api_key audio_file_path options)
      as [response|e3] eqn:E3; [|discriminate].
    destruct (py_open w (transcript_path audio_file_path) "w")
      as [[]|e4] eqn:E4; [|discriminate].
    destruct (file_write w (transcript_path audio_file_path) (to_json response))
      as [[]|e5] eqn:E5; [|discriminate].
    exists response. do 5 (split; [first [reflexivity | assumption]|]).
    rewrite (transcribe_succeeds w _ _ response E1 E2 E3 E4 E5).
    now exists [ OpenFile audio_file_path "rb";
                 TranscribeFile api_key audio_file_path options;
                 Print (PyStr.LF ++ "Transcription Results:");
                 Print (to_json response);
                 OpenFile (transcript_path audio_file_path) "w";
                 WriteFile (transcript_path audio_file_path) (to_json response);
                 CloseFile (transcript_path audio_file_path) ].
  - right. exists t, e. split; [reflexivity|].
    exact (transcribe_catches _ _ _ _ _ Hb).
Qed.

(** The transcript cannot be opened: the response has been printed, and the
    error is reported after the audio file is closed. *)
Lemma transcribe_open_fails (w : World) (audio_file_path api_key : string)
  (response : Response) (e : exn) :
  DeepgramClient w api_key = Ok tt ->
  py_open w audio_file_path "rb" = Ok tt ->
  transcribe_file w api_key audio_file_path options = Ok response ->
  py_open w (transcript_path audio_file_path) "w" = Raise e ->
  transcribe_audio w audio_file_path api_key
  = ([ OpenFile audio_file_path "rb";
       TranscribeFile api_key audio_file_path options;
       Print (PyStr.LF ++ "Transcription Results:");
       Print (to_json response);
       OpenFile (transcript_path audio_file_path) "w";
       CloseFile audio_file_path;
       Print ("Error during transcription: " ++ str_exn e) ],
     Ok tt).
Proof.
  intros Hc Ho Ht Hw.
  unfold transcribe_audio, transcribe_body, with_open, finally, bind, call,
    ask, print.
  now rewrite Hc, Ho, Ht, Hw.
Qed.

(** The write fails: both files are closed before the error is reported. *)
Lemma transcribe_write_fails (w : World) (audio_file_path api_key : string)
  (response : Response) (e : exn) :
  DeepgramClient w api_key = Ok tt ->
  py_open w audio_file_path "rb" = Ok tt ->
  transcribe_file w api_key audio_file_path options = Ok response ->
  py_open w (transcript_path audio_file_path) "w" = Ok tt ->
  file_write w (transcript_path audio_file_path) (to_json response) = Raise e ->
  transcribe_audio w audio_file_path api_key
  = ([ OpenFile audio_file_path "rb";
       TranscribeFile api_key audio_file_path options;
       Print (PyStr.LF ++ "Transcription Results:");
       Print (to_json response);
       OpenFile (transcript_path audio_file_path) "w";
       WriteFile (transcript_path audio_file_path) (to_json response);
       CloseFile (transcript_path audio_file_path);
       CloseFile audio_file_path;
       Print ("Error during transcription: " ++ str_exn e) ],
     Ok tt).
Proof.
  intros Hc Ho Ht Hw Hf.
  unfold transcribe_audio, transcribe_body, with_open, finally, bind, call,
    ask, print.
  now rewrite Hc, Ho, Ht, Hw, Hf.
Qed.

(** X11. A file that was opened is closed on every path.  Once the audio
    file is open, the trace holds its closing, after which nothing happens
    but the report of an error, if there was one; and once the transcript
    is open, the trace holds its closing, whether the write succeeds or
    not. *)
Theorem opened_files_are_closed (w : World) (audio_file_path api_key : string) :
  DeepgramClient w api_key = Ok tt ->
  py_open w audio_file_path "rb" = Ok tt ->
  (exists t rest,
     fst (transcribe_audio w audio_file_path api_key)
     = (t ++ CloseFile audio_file_path :: rest)%list
     /\ (rest = []
         \/ exists e, rest = [Print ("Error during transcription: " ++ str_exn e)]))
  /\ (forall response,
        transcribe_file w api_key audio_file_path options = Ok response ->
        py_open w (transcript_path audio_file_path) "w" = Ok tt ->
        In (CloseFile (transcript_path audio_file_path))
           (fst (transcribe_audio w audio_file_path api_key))).
Proof.
  intros Hc Ho.
  destruct (transcribe_file w api_key audio_file_path options)
    as [response|e3] eqn:Ht.
  - destruct (py_open w (transcript_path audio_file_path) "w")
      as [[]|e4] eqn:Hw.
    + destruct (file_write w (transcript_path audio_file_path) (to_json response))
        as [[]|e5] eqn:Hf.
      * rewrite (transcribe_succeeds w _ _ response Hc Ho Ht Hw Hf). cbn [fst].
        split.
        -- exists [ OpenFile audio_file_path "rb";
                    TranscribeFile api_key audio_file_path options;
                    Print (PyStr.LF ++ "Transcription Results:");
                    Print (to_json response);
                    OpenFile (transcript_path audio_file_path) "w";
                    WriteFile (transcript_path audio_file_path) (to_json response);
                    CloseFile (transcript_path audio_file_path);
                    Print ("Transcript saved to: "
                           ++ transcript_path audio_file_path) ], [].
           split; [reflexivity | now left].
        -- intros r _ _. do 6 right. now left.
      * rewrite (transcribe_write_fails w _ _ response e5 Hc Ho Ht Hw Hf).
        cbn [fst]. split.
        -- exists [ OpenFile audio_file_path "rb";
                    TranscribeFile api_key audio_file_path options;
                    Print (PyStr.LF ++ "Transcription Results:");
                    Print (to_json response);
                    OpenFile (transcript_path audio_file_path) "w";
                    WriteFile (transcript_path audio_file_path) (to_json response);
                    CloseFile (transcript_path audio_file_path) ],
                  [Print ("Error during transcription: " ++ str_exn e5)].
           split; [reflexivity | right; now exists e5].
        -- intros r _ _. do 6 right. now left.
    + rewrite (transcribe_open_fails w _ _ response e4 Hc Ho Ht Hw). cbn [fst].
      split.
      * exists [ OpenFile audio_file_path "rb";
                 TranscribeFile api_key audio_file_path options;
                 Print (PyStr.LF ++ "Transcription Results:");
                 Print (to_json response);
                 OpenFile (transcript_path audio_file_path) "w" ],
               [Print ("Error during transcription: " ++ str_exn e4)].
        split; [reflexivity | right; now exists e4].
      * intros r _ Hopen. discriminate.
  - rewrite (transcribe_request_fails w _ _ e3 Hc Ho Ht). cbn [fst]. split.
    + exists [ OpenFile audio_file_path "rb";
               TranscribeFile api_key audio_file_path options ],
             [Print ("Error during transcription: " ++ str_exn e3)].
      split; [reflexivity | right; now exists e3].
    + intros r Hr. discriminate.
Qed.

(** The disk is full: the transcript is opened, the write fails, and both
    files are closed. *)
Lemma opened_files_are_closed_witness :
  In (CloseFile "/tmp/song_transcript.json")
     (fst (transcribe_audio
             (without_write
                (example_world (Ok "") "/tmp" [] (Some "key")
                               (Ok {| to_json := "{}" |}))
                (PyException "[Errno 28] No space left on device"))
             "/tmp/song.wav" "key")).
Proof.
  exact (proj2 (opened_files_are_closed
                  (without_write
                     (example_world (Ok "") "/tmp" [] (Some "key")
                                    (Ok {| to_json := "{}" |}))
                     (PyException "[Errno 28] No space left on device"))
                  "/tmp/song.wav" "key" eq_refl eq_refl)
               {| to_json := "{}" |} eq_refl eq_refl).
Defined.

(* ================================================================== *)
(** * More on the command line *)

Lemma count_events_app (test : event -> bool) (t t' : list event) :
  count_events test (t ++ t') = count_events test t + count_events test t'.
Proof. unfold count_events. now rewrite filter_app, length_app. Qed.

(** A download runs the downloader at most once. *)
Lemma download_runs_once (w : World) (url output_path format quality : string) :
  count_events is_run_event
    (fst (download_audio_from_youtube w url output_path format quality)) <= 1.
Proof.
  pose proof (locate_audio_file_trace w output_path format) as Ht.
  unfold download_audio_from_youtube, download_body, bind, call, print,
    try_except.
  destruct (os_makedirs w output_path) as [[]|e1].
  - destruct (subprocess_run w _) as [stdout|e2].
    + specialize (Ht stdout).
      destruct (locate_audio_file w output_path format stdout) as [t [f|e3]];
        simpl in Ht; subst t; [|destruct e3]; cbn; lia.
    + destruct e2; cbn; lia.
  - destruct e1; cbn; lia.
Qed.

Lemma download_requests_nothing (w : World) (url output_path format quality : string) :
  count_events is_transcribe_event
    (fst (download_audio_from_youtube w url output_path format quality)) = 0.
Proof.
  unfold count_events.
  destruct (filter _ _) as [|ev l] eqn:E; [reflexivity|].
  assert (Hin : In ev (filter is_transcribe_event
                         (fst (download_audio_from_youtube w url output_path
                                                           format quality))))
    by (rewrite E; now left).
  apply filter_In in Hin as [Hin Hev].
  destruct (download_trace_quiet _ _ _ _ _ _ Hin) as [H _]. congruence.
Qed.

(** A transcription sends at most one request, runs no process, and any
    request it sends carries its arguments and the fixed options. *)
Lemma transcribe_trace_events (w : World) (audio_file_path api_key : string) :
  count_events is_transcribe_event
    (fst (transcribe_audio w audio_file_path api_key)) <= 1
  /\ count_events is_run_event
       (fst (transcribe_audio w audio_file_path api_key)) = 0
  /\ forall key path opts,
       In (TranscribeFile key path opts)
          (fst (transcribe_audio w audio_file_path api_key)) ->
       key = api_key /\ path = audio_file_path /\ opts = options.
Proof.
  unfold transcribe_audio, transcribe_body, with_open, finally, bind, call,
    ask, print, try_except, transcribe_handler.
  destruct (DeepgramClient w api_key) as [[]|e1];
    [destruct (py_open w audio_file_path "rb") as [[]|e2];
     [destruct (transcribe_file w api_key audio_file_path options) as [resp|e3];
      [destruct (py_open w (transcript_path audio_file_path) "w") as [[]|e4];
       [destruct (file_write w (transcript_path audio_file_path) (to_json resp))
          as [[]|e5]|]|]|]|];
    cbn [fst app]; (split; [cbn; lia|]); (split; [reflexivity|]);
    intros key path opts Hin;
    repeat (destruct Hin as [Hin|Hin];
            [first [discriminate Hin | injection Hin as <- <- <-; now repeat split]|]);
    destruct Hin.
Qed.

(** When [main] does not transcribe, its trace is that of the download. *)
Lemma main_without_transcription (w : World) (args : Args) (t : list event)
  (audio_file : option string) :
  download_audio_from_youtube w (url args) (output args) (format args)
                              (quality args) = (t, Ok audio_file) ->
  transcribe args = false \/ truthy audio_file = false ->
  main w args = (t, Ok tt).
Proof.
  intros Hd Hgate.
  rewrite (main_after_download w args t audio_file Hd).
  unfold transcribe_if_requested.
  replace (transcribe args && truthy audio_file) with false
    by (destruct Hgate as [-> | ->]; [reflexivity | now rewrite andb_false_r]).
  cbn [ret fst snd]. now rewrite app_nil_r.
Qed.

(** The download looks at the world only through the making of directories,
    the downloader, the listing and the modification times. *)
Lemma download_same_in_similar_worlds
  (w w' : World) (url output_path format quality : string) :
  os_makedirs w = os_makedirs w' ->
  subprocess_run w = subprocess_run w' ->
  os_listdir w = os_listdir w' ->
  os_path_getmtime w = os_path_getmtime w' ->
  download_audio_from_youtube w url output_path format quality
  = download_audio_from_youtube w' url output_path format quality.
Proof.
  intros H1 H2 H3 H4.
  unfold download_audio_from_youtube, download_body, locate_audio_file,
    scan_directory.
  now rewrite H1, H2, H3, H4.
Qed.

(** X12. Without [-t], or after a download that returned no path, the
    credential, the client and the transcription service play no part: two
    worlds that agree on the making of directories, the downloader, the
    listing and the modification times give the same run of [main], and
    that run is the download alone. *)
Theorem transcription_is_opt_in (w w' : World) (args : Args) :
  os_makedirs w = os_makedirs w' ->
  subprocess_run w = subprocess_run w' ->
  os_listdir w = os_listdir w' ->
  os_path_getmtime w = os_path_getmtime w' ->
  transcribe args = false
  \/ truthy_result (snd (download_audio_from_youtube
                           w (url args) (output args) (format args)
                           (quality args))) = false ->
  main w' args = main w args
  /\ main w args
     = (fst (download_audio_from_youtube w (url args) (output args)
                                         (format args) (quality args)),
        Ok tt).
Proof.
  intros H1 H2 H3 H4 Hgate.
  pose proof (download_same_in_similar_worlds w w' (url args) (output args)
                (format args) (quality args) H1 H2 H3 H4) as Hsame.
  destruct (download_returns w (url args) (output args) (format args)
              (quality args)) as (t & r & Hd).
  rewrite Hd in *. cbn [fst snd truthy_result] in *.
  assert (Hmain : main w args = (t, Ok tt))
    by exact (main_without_transcription w args t r Hd Hgate).
  split; [|exact Hmain].
  rewrite Hmain.
  exact (main_without_transcription w' args t r (eq_sym Hsame) Hgate).
Qed.

(** Without [-t], a run with a key and a service and a run with neither. *)
Lemma transcription_is_opt_in_witness :
  main (example_world (Ok "[ExtractAudio] Destination: out/clip.wav") "out"
                      [("clip.wav", 7%Z)] (Some "dg-secret")
                      (Ok {| to_json := "{}" |}))
       {| url := "https://youtu.be/x"; output := "out"; transcribe := false;
          format := "wav"; quality := "0" |}
  = main (example_world (Ok "[ExtractAudio] Destination: out/clip.wav") "out"
                        [("clip.wav", 7%Z)] None
                        (Raise (PyException "unused")))
         {| url := "https://youtu.be/x"; output := "out"; transcribe := false;
            format := "wav"; quality := "0" |}.
Proof.
  exact (proj1 (transcription_is_opt_in
                  (example_world (Ok "[ExtractAudio] Destination: out/clip.wav")
                                 "out" [("clip.wav", 7%Z)] None
                                 (Raise (PyException "unused")))
                  (example_world (Ok "[ExtractAudio] Destination: out/clip.wav")
                                 "out" [("clip.wav", 7%Z)] (Some "dg-secret")
                                 (Ok {| to_json := "{}" |}))
                  {| url := "https://youtu.be/x"; output := "out";
                     transcribe := false; format := "wav"; quality := "0" |}
                  eq_refl eq_refl eq_refl eq_refl (or_introl eq_refl))).
Defined.

Lemma transcribe_if_requested_with_key (w : World) (args : Args)
  (path key : string) :
  transcribe args = true ->
  path <> "" ->
  os_getenv w "DEEPGRAM_API_KEY" = Some key ->
  key <> "" ->
  transcribe_if_requested w args (Some path)
  = (Print key :: fst (transcribe_audio w path key), Ok tt).
Proof.
  intros Ht Hpath Hkey Hkne. unfold transcribe_if_requested.
  rewrite Ht, Hkey.
  destruct path as [|c path]; [congruence|].
  destruct key as [|d key]; [congruence|].
  cbn [truthy andb negb str_opt]. unfold bind, print, call.
  destruct (transcribe_returns w (String c path) (String d key)) as [t ->].
  reflexivity.
Qed.

(** X13. With [-t], a path from the download and a key in the environment,
    [main] is the download, the printing of the key, and the transcription
    of that very path with that very key, in this order. *)
Theorem main_hands_path_and_key_over
  (w : World) (args : Args) (t : list event) (path key : string) :
  transcribe args = true ->
  download_audio_from_youtube w (url args) (output args) (format args)
                              (quality args) = (t, Ok (Some path)) ->
  path <> "" ->
  os_getenv w "DEEPGRAM_API_KEY" = Some key ->
  key <> "" ->
  main w args
  = ((t ++ Print key :: fst (transcribe_audio w path key))%list, Ok tt).
Proof.
  intros Ht Hd Hpath Hkey Hkne.
  rewrite (main_after_download w args t (Some path) Hd).
  now rewrite (transcribe_if_requested_with_key w args path key Ht Hpath Hkey Hkne).
Qed.

Lemma main_hands_path_and_key_over_witness :
  main (example_world (Ok "[ExtractAudio] Destination: out/clip.wav") "out"
                      [("clip.wav", 7%Z)] (Some "dg-secret")
                      (Raise (PyException "401 Unauthorized")))
       {| url := "https://youtu.be/x"; output := "out"; transcribe := true;
          format := "wav"; quality := "0" |}
  = ((download_prefix "https://youtu.be/x" "out" "wav" "0"
      ++ [Print "Audio downloaded successfully to: out/clip.wav"]
      ++ Print "dg-secret"
         :: fst (transcribe_audio
                   (example_world (Ok "[ExtractAudio] Destination: out/clip.wav")
                                  "out" [("clip.wav", 7%Z)] (Some "dg-secret")
                                  (Raise (PyException "401 Unauthorized")))
                   "out/clip.wav" "dg-secret"))%list,
     Ok tt).
Proof.
  apply (main_hands_path_and_key_over
           (example_world (Ok "[ExtractAudio] Destination: out/clip.wav") "out"
                          [("clip.wav", 7%Z)] (Some "dg-secret")
                          (Raise (PyException "401 Unauthorized")))
           {| url := "https://youtu.be/x"; output := "out"; transcribe := true;
              format := "wav"; quality := "0" |}
           (download_prefix "https://youtu.be/x" "out" "wav" "0"
            ++ [Print "Audio downloaded successfully to: out/clip.wav"])%list
           "out/clip.wav" "dg-secret");
    first [reflexivity | discriminate].
Defined.

(** X14. Every request [main] sends to the transcription service was asked
    for with [-t], carries the key found in the environment, which is not
    empty, the path the download returned, which is not empty, and the
    fixed options. *)
Theorem requests_come_from_flag_key_and_download
  (w : World) (args : Args) (key path : string) (opts : PrerecordedOptions) :
  In (TranscribeFile key path opts) (fst (main w args)) ->
  transcribe args = true
  /\ os_getenv w "DEEPGRAM_API_KEY" = Some key
  /\ key <> ""
  /\ snd (download_audio_from_youtube w (url args) (output args) (format args)
                                      (quality args)) = Ok (Some path)
  /\ path <> ""
  /\ opts = options.
Proof.
  destruct (download_returns w (url args) (output args) (format args)
              (quality args)) as (t & r & Hd).
  rewrite (main_after_download w args t r Hd), Hd. cbn [fst snd].
  intros Hin. apply in_app_or in Hin as [Hin|Hin].
  { pose proof (download_trace_quiet w (url args) (output args) (format args)
                  (quality args) (TranscribeFile key path opts)) as Hq.
    rewrite Hd in Hq. destruct (Hq Hin) as [Hq' _]. discriminate. }
  revert Hin. unfold transcribe_if_requested.
  destruct (transcribe args); [|intros []].
  destruct r as [[|c p]|]; cbn [truthy andb]; try (intros []).
  destruct (os_getenv w "DEEPGRAM_API_KEY") as [[|d k]|];
    cbn [truthy negb str_opt]; unfold bind, print, call.
  - cbn. intros [H|[H|[H|[]]]]; discriminate.
  - destruct (transcribe_audio w (String c p) (String d k)) as [t' r'] eqn:Etr.
    cbn [fst app]. intros [H|Hin]; [discriminate|].
    destruct (transcribe_trace_events w (String c p) (String d k))
      as (_ & _ & Hreq).
    rewrite Etr in Hreq. destruct (Hreq key path opts Hin) as (-> & -> & ->).
    repeat split; discriminate.
  - cbn. intros [H|[H|[H|[]]]]; discriminate.
Qed.

Lemma requests_come_from_flag_key_and_download_witness :
  os_getenv (example_world (Ok "[ExtractAudio] Destination: out/clip.wav") "out"
                           [("clip.wav", 7%Z)] (Some "dg-secret")
                           (Ok {| to_json := "{}" |}))
            "DEEPGRAM_API_KEY" = Some "dg-secret".
Proof.
  refine (proj1 (proj2 (requests_come_from_flag_key_and_download
                  (example_world (Ok "[ExtractAudio] Destination: out/clip.wav")
                                 "out" [("clip.wav", 7%Z)] (Some "dg-secret")
                                 (Ok {| to_json := "{}" |}))
                  {| url := "https://youtu.be/x"; output := "out";
                     transcribe := true; format := "wav"; quality := "0" |}
                  "dg-secret" "out/clip.wav" options _))).
  vm_compute. do 6 right. now left.
Defined.

(** X15. Nothing is tried twice: in every world [main] runs the downloader
    at most once and sends at most one request to the transcription
    service. *)
Theorem main_retries_nothing (w : World) (args : Args) :
  count_events is_run_event (fst (main w args)) <= 1
  /\ count_events is_transcribe_event (fst (main w args)) <= 1.
Proof.
  destruct (download_returns w (url args) (output args) (format args)
              (quality args)) as (t & r & Hd).
  pose proof (download_runs_once w (url args) (output args) (format args)
                (quality args)) as Hrun.
  pose proof (download_requests_nothing w (url args) (output args) (format args)
                (quality args)) as Hreq.
  rewrite Hd in Hrun, Hreq. cbn [fst] in Hrun, Hreq.
  rewrite (main_after_download w args t r Hd). cbn [fst].
  rewrite !count_events_app.
  assert (Hrest : count_events is_run_event
                    (fst (transcribe_if_requested w args r)) = 0
                  /\ count_events is_transcribe_event
                       (fst (transcribe_if_requested w args r)) <= 1).
  { unfold transcribe_if_requested.
    destruct (transcribe args && truthy r); [|split; cbn; lia].
    unfold bind, print, call.
    destruct (negb (truthy (os_getenv w "DEEPGRAM_API_KEY")));
      [split; cbn; lia|].
    destruct r as [path|]; [|split; cbn; lia].
    destruct (os_getenv w "DEEPGRAM_API_KEY") as [key|]; [|split; cbn; lia].
    destruct (transcribe_trace_events w path key) as (Hone & Hzero & _).
    destruct (transcribe_audio w path key) as [t' r']. cbn [fst] in *.
    change (Print (str_opt (Some key)) :: t')%list
      with ([Print (str_opt (Some key))] ++ t')%list.
    rewrite !count_events_app. split; cbn; cbn in Hone, Hzero; lia. }
  destruct Hrest as [Hzero Hone]. lia.
Qed.

(** X16. A destination line that names nothing but white space makes the
    download announce success and return the empty string; [main] does not
    take that for a path, and stops there without a word, even with
    [-t]. *)
Theorem empty_destination_stops_main
  (w : World) (args : Args) (stdout line piece : string) :
  os_makedirs w (output args) = Ok tt ->
  subprocess_run w (yt_dlp_command (url args) (output args) (format args)
                                   (quality args)) = Ok stdout ->
  first_matching_line (format args) (PyStr.split stdout PyStr.LF) = Some line ->
  nth_error (PyStr.split line (separator_of line)) 1 = Some piece ->
  PyStr.strip piece = "" ->
  download_audio_from_youtube w (url args) (output args) (format args)
                              (quality args)
  = ((download_prefix (url args) (output args) (format args) (quality args)
      ++ [Print "Audio downloaded successfully to: "])%list,
     Ok (Some ""))
  /\ main w args
     = ((download_prefix (url args) (output args) (format args) (quality args)
         ++ [Print "Audio downloaded successfully to: "])%list,
        Ok tt).
Proof.
  intros Hmk Hrun Hsome Hpiece Hempty.
  pose proof (download_first_match w _ _ _ _ stdout Hmk Hrun line piece
                Hsome Hpiece) as Hd.
  rewrite Hempty in Hd. split; [exact Hd|].
  apply (main_without_transcription w args _ (Some "") Hd). now right.
Qed.

Lemma empty_destination_stops_main_witness :
  main (example_world (Ok "[ExtractAudio] Destination:  ") "out"
                      [("clip.wav", 7%Z)] (Some "dg-secret")
                      (Ok {| to_json := "{}" |}))
       {| url := "https://youtu.be/x"; output := "out"; transcribe := true;
          format := "wav"; quality := "0" |}
  = ((download_prefix "https://youtu.be/x" "out" "wav" "0"
      ++ [Print "Audio downloaded successfully to: "])%list,
     Ok tt).
Proof.
  exact (proj2 (empty_destination_stops_main
                  (example_world (Ok "[ExtractAudio] Destination:  ") "out"
                                 [("clip.wav", 7%Z)] (Some "dg-secret")
                                 (Ok {| to_json := "{}" |}))
                  {| url := "https://youtu.be/x"; output := "out";
                     transcribe := true; format := "wav"; quality := "0" |}
                  "[ExtractAudio] Destination:  "
                  "[ExtractAudio] Destination:  " " "
                  eq_refl eq_refl eq_refl eq_refl eq_refl)).
Defined.

(** X17. For an audio path without any dot there is no extension to
    replace: the transcript path is the audio path followed by
    [_transcript.json]. *)
Theorem transcript_path_without_extension (audio_file_path : string) :
  PyStr.contains "." audio_file_path = false ->
  transcript_path audio_file_path = audio_file_path ++ "_transcript.json".
Proof.
  intros Hno. unfold transcript_path, PosixPath.splitext, PosixPath.rfind.
  destruct (rfind_from_spec "." audio_file_path 0 (-1))
    as [[_ Hd] | (pre & post & Hp & _ & _)].
  - rewrite Hd.
    destruct (rfind_from_spec "/" audio_file_path 0 (-1))
      as [[_ Hs] | (pre' & post' & _ & _ & Hs)]; rewrite Hs.
    + reflexivity.
    + replace (_ <? _)%Z with false by (symmetry; apply Z.ltb_ge; lia).
      reflexivity.
  - rewrite Hp, contains_char_append, contains_char_cons in Hno.
    rewrite Ascii.eqb_refl, orb_true_r in Hno. discriminate.
Qed.

Lemma transcript_path_without_extension_witness :
  transcript_path "/tmp/recording" = "/tmp/recording" ++ "_transcript.json".
Proof.
  exact (transcript_path_without_extension "/tmp/recording" eq_refl).
Defined.
